(** * pull-request-slack-notifier: a shallow embedding and its properties

    The development follows the three source files of the action:
    - [utils.ts]  : [stringify], [normalizeError];
    - [slack.ts]  : [generateUser], [getRequestedReviewers],
                    [getPullRequestDetail], [buildMessageContent],
                    [postMessage], [addReaction], [postMessageWithWebhook];
    - [main.ts]   : [formatUserMapping], [parseInput], [isValidEvent], [run].

    JavaScript values that the code handles dynamically (thrown errors, the
    result of [JSON.parse], the values of the user mapping) are elements of
    [JsVal]; typed payloads are records that follow [types.ts].  Calls to the
    outside (GitHub REST, Slack Web API, incoming webhook, the action
    toolkit) are recorded in a trace by a small state-and-error monad.

    Modelling choices:
    - a string is the sequence of its UTF-8 bytes; [toUpperCase] acts on
      ASCII letters;
    - a number is an integer, printed in decimal;
    - an object used as a map ([TInput.userMapping]) is the finite map of
      its own entries, read through [Object.prototype] as the code reads it;
    - [JsVal] has no symbol, no bigint and no cyclic structure, so
      [JSON.stringify] never throws on it;
    - [github.context.eventName] fixes the shape of the payload, as the
      casts of the code assume; a name outside the three handled ones
      carries no payload beyond [action] and [sender];
    - [JSON.parse], the REST and Slack clients and [Math.random] are
      answers of the [World]; [core.debug] output is not traced. *)

From Stdlib Require Import ZArith Ascii.
From stdpp Require Import base option list strings pretty gmap vector.

Set Warnings "-register-all".
Local Open Scope Z_scope.

(** ** Strings *)

Module Js.

(** Characters that cannot be written inside a literal. *)
Definition dquote : string := String "034"%char EmptyString.
Definition backslash : string := String "092"%char EmptyString.
Definition newline : string := String "010"%char EmptyString.
Definition backtick : string := String "096"%char EmptyString.

(** [Array.prototype.join] on an array of strings. *)
Fixpoint join (sep : string) (l : list string) : string :=
  match l with
  | [] => ""
  | [x] => x
  | x :: rest => x +:+ sep +:+ join sep rest
  end.

(** [String.prototype.toUpperCase], on the ASCII letters. *)
Definition upper_char (c : ascii) : ascii :=
  let n := nat_of_ascii c in
  if ((97 <=? n) && (n <=? 122))%nat then ascii_of_nat (n - 32) else c.

Fixpoint toUpperCase (s : string) : string :=
  match s with
  | EmptyString => EmptyString
  | String c rest => String (upper_char c) (toUpperCase rest)
  end.

(** [s.replace(pat, by)] with a one-character string pattern: only the
    FIRST occurrence is replaced. *)
Fixpoint replace (pat : ascii) (by_ : string) (s : string) : string :=
  match s with
  | EmptyString => EmptyString
  | String c rest =>
      if Ascii.eqb c pat then by_ +:+ rest else String c (replace pat by_ rest)
  end.

(** Replacement of EVERY occurrence, the reading of
    "underscores replaced by spaces". *)
Fixpoint replaceAll (pat : ascii) (by_ : string) (s : string) : string :=
  match s with
  | EmptyString => EmptyString
  | String c rest =>
      if Ascii.eqb c pat then by_ +:+ replaceAll pat by_ rest
      else String c (replaceAll pat by_ rest)
  end.

(** [Array.prototype.includes] on strings. *)
Definition includes (l : list string) (x : string) : bool :=
  existsb (String.eqb x) l.

(** A string is truthy when it is not empty. *)
Definition truthy_string (s : string) : bool :=
  match s with EmptyString => false | _ => true end.

(** Rendering of an integer-valued number ([Number::toString]). *)
Definition number_toString (z : Z) : string := pretty z.

(** A UTF-16 code unit in the surrogate range, as the three bytes of its
    generalized UTF-8 form. *)
Definition surrogate (u : N) : string :=
  String (ascii_of_N (224 + u / 4096))
    (String (ascii_of_N (128 + (u / 64) mod 64))
       (String (ascii_of_N (128 + u mod 64)) EmptyString)).

(** The UTF-16 code units of a string, which is what indexing a
    JavaScript string gives: a character of one to three bytes is one unit,
    a character of four bytes is a pair of surrogates. *)
Fixpoint code_units (s : string) : list string :=
  match s with
  | EmptyString => []
  | String b0 rest =>
      let n0 := N_of_ascii b0 in
      if ((192 <=? n0) && (n0 <? 224))%N then
        match rest with
        | String b1 rest' =>
            String b0 (String b1 EmptyString) :: code_units rest'
        | _ => String b0 EmptyString :: code_units rest
        end
      else if ((224 <=? n0) && (n0 <? 240))%N then
        match rest with
        | String b1 (String b2 rest') =>
            String b0 (String b1 (String b2 EmptyString)) :: code_units rest'
        | _ => String b0 EmptyString :: code_units rest
        end
      else if ((240 <=? n0) && (n0 <? 248))%N then
        match rest with
        | String b1 (String b2 (String b3 rest')) =>
            let cp := ((n0 mod 8) * 262144 + (N_of_ascii b1 mod 64) * 4096
                       + (N_of_ascii b2 mod 64) * 64 + N_of_ascii b3 mod 64)%N in
            let c := (cp - 65536)%N in
            surrogate (55296 + c / 1024) :: surrogate (56320 + c mod 1024)
            :: code_units rest'
        | _ => String b0 EmptyString :: code_units rest
        end
      else String b0 EmptyString :: code_units rest
  end.

End Js.

(** ** JavaScript values *)

(** The values the code treats dynamically.  [JNum] carries an
    integer-valued number; [JObj] lists the own enumerable properties in
    property order; [JError m] is an instance of [Error] whose [message]
    is [m]; [JFunction n] is the built-in function named [n]. *)
Inductive JsVal : Type :=
| JUndefined
| JNull
| JBool (b : bool)
| JNum (z : Z)
| JStr (s : string)
| JArr (items : list JsVal)
| JObj (props : list (string * JsVal))
| JError (message : string)
| JFunction (name : string).

(** Result of a computation that may throw. *)
Inductive Result (A : Type) : Type :=
| Ok (a : A)
| Throw (e : JsVal).
Arguments Ok {A} a.
Arguments Throw {A} e.

(** [ToBoolean]. *)
Definition truthy (v : JsVal) : bool :=
  match v with
  | JUndefined | JNull => false
  | JBool b => b
  | JNum z => negb (z =? 0)
  | JStr s => Js.truthy_string s
  | JArr _ | JObj _ | JError _ | JFunction _ => true
  end.

(** [typeof v === 'string'] *)
Definition is_string (v : JsVal) : bool :=
  match v with JStr _ => true | _ => false end.

(** [ToString], as used by template literals. *)
Fixpoint ToString (v : JsVal) : string :=
  match v with
  | JUndefined => "undefined"
  | JNull => "null"
  | JBool true => "true"
  | JBool false => "false"
  | JNum z => Js.number_toString z
  | JStr s => s
  | JArr items =>
      Js.join ","
        (map (fun x => match x with
                       | JUndefined | JNull => ""
                       | _ => ToString x
                       end) items)
  | JObj _ => "[object Object]"
  | JError m => match m with EmptyString => "Error" | _ => "Error: " +:+ m end
  | JFunction name => "function " +:+ name +:+ "() { [native code] }"
  end.

(** The functions every plain object inherits from [Object.prototype],
    besides [constructor]. *)
Definition Object_prototype_methods : list string :=
  ["__defineGetter__"; "__defineSetter__"; "hasOwnProperty";
   "__lookupGetter__"; "__lookupSetter__"; "isPrototypeOf";
   "propertyIsEnumerable"; "toString"; "valueOf"; "toLocaleString"].

(** [Object.prototype[k]] as a plain object sees it: [constructor] is
    [Object], [__proto__] is [Object.prototype] itself. *)
Definition inherited (k : string) : option JsVal :=
  if String.eqb k "constructor" then Some (JFunction "Object")
  else if String.eqb k "__proto__" then Some (JObj [])
  else if Js.includes Object_prototype_methods k then Some (JFunction k)
  else None.

(** [object[k]] on a plain object with the own entries [own]: an own
    entry first, then [Object.prototype], else [undefined]. *)
Definition property (own : gmap string JsVal) (k : string) : JsVal :=
  match own !! k with
  | Some v => v
  | None => default JUndefined (inherited k)
  end.

(** ** utils.ts *)

Module Utils.

Definition hex_digit (n : nat) : ascii :=
  if (n <? 10)%nat then ascii_of_nat (48 + n) else ascii_of_nat (87 + n).

(** One character of [QuoteJSONString]. *)
Definition quote_char (c : ascii) : string :=
  let n := nat_of_ascii c in
  if (n =? 8)%nat then Js.backslash +:+ "b"
  else if (n =? 9)%nat then Js.backslash +:+ "t"
  else if (n =? 10)%nat then Js.backslash +:+ "n"
  else if (n =? 12)%nat then Js.backslash +:+ "f"
  else if (n =? 13)%nat then Js.backslash +:+ "r"
  else if (n =? 34)%nat then Js.backslash +:+ Js.dquote
  else if (n =? 92)%nat then Js.backslash +:+ Js.backslash
  else if (n <? 32)%nat then
    Js.backslash +:+ "u00" +:+
    String (hex_digit (n / 16)) (String (hex_digit (n mod 16)) EmptyString)
  else String c EmptyString.

Fixpoint quote_chars (s : string) : string :=
  match s with
  | EmptyString => EmptyString
  | String c rest => quote_char c +:+ quote_chars rest
  end.

Definition QuoteJSONString (s : string) : string :=
  Js.dquote +:+ quote_chars s +:+ Js.dquote.

(** A non-empty array or object, wrapped and indented. *)
Definition wrap (open_ close_ indent stepback : string) (partial : list string)
  : string :=
  match partial with
  | [] => open_ +:+ close_
  | _ =>
      open_ +:+ Js.newline +:+ indent +:+
      Js.join ("," +:+ Js.newline +:+ indent) partial +:+
      Js.newline +:+ stepback +:+ close_
  end.

(** [SerializeJSONProperty] with a gap of [gap]; [None] is [undefined]. *)
Fixpoint SerializeJSONProperty (gap indent : string) (v : JsVal)
  : option string :=
  match v with
  | JUndefined => None
  | JNull => Some "null"
  | JBool true => Some "true"
  | JBool false => Some "false"
  | JNum z => Some (Js.number_toString z)
  | JStr s => Some (QuoteJSONString s)
  | JArr items =>
      let stepback := indent in
      let indent := indent +:+ gap in
      Some (wrap "[" "]" indent stepback
              (map (fun x => default "null" (SerializeJSONProperty gap indent x))
                   items))
  | JObj props =>
      let stepback := indent in
      let indent := indent +:+ gap in
      Some (wrap "{" "}" indent stepback
              (omap (fun kv =>
                       match SerializeJSONProperty gap indent kv.2 with
                       | Some s => Some (QuoteJSONString kv.1 +:+ ": " +:+ s)
                       | None => None
                       end) props))
  | JError _ => Some "{}"
  | JFunction _ => None
  end.

(** [JSON.stringify(value, null, 2)] *)
Definition JSON_stringify_2 (v : JsVal) : option string :=
  SerializeJSONProperty "  " "" v.

(** [stringify = (value) => JSON.stringify(value, null, 2)] *)
Definition stringify (value : JsVal) : JsVal :=
  match JSON_stringify_2 value with
  | Some s => JStr s
  | None => JUndefined
  end.

(** [isUndefined] *)
Definition isUndefined (value : JsVal) : bool :=
  match value with JUndefined => true | _ => false end.

(** [normalizeError] *)
Definition normalizeError (error : JsVal) : JsVal :=
  match error with
  | JStr _ => error
  | JError message => JStr message
  | _ => stringify error
  end.

End Utils.

(** ** types.ts : the webhook payloads *)

Record TUser := { login : string; avatar_url : string }.

Record TRepository := { repo_html_url : string }.

(** [pull_request.head] and [pull_request.base]; [repo] is nullable. *)
Record TBranch := { ref : string; branch_repo : option TRepository }.

Record TLabel := { label_name : string }.

(** An element of [requested_reviewers] is a user or a team; only a user
    has a [login]. *)
Inductive TReviewer :=
| ReviewerUser (u : TUser)
| ReviewerTeam (team_name : string).

Definition TRequestedReviewers := list TReviewer.

Record TPullRequest := {
  pr_number : Z;
  pr_title : string;
  pr_html_url : string;
  pr_changed_files : Z;
  pr_head : TBranch;
  pr_base : TBranch;
  pr_user : TUser;
  pr_labels : list TLabel;
  pr_requested_reviewers : TRequestedReviewers;
  pr_merged : option bool;
}.

(** The answer of [octokit.rest.pulls.get]; the code reads [user] with
    [?.] and tests [requested_reviewers] before use. *)
Record TPullRequestDetail := {
  detail_html_url : string;
  detail_changed_files : Z;
  detail_head : TBranch;
  detail_base : TBranch;
  detail_user : option TUser;
  detail_requested_reviewers : option TRequestedReviewers;
}.

(** [review.state] as [TPullRequestReviewSubmittedWebhookEventPayload]
    declares it: 'commented' | 'approved' | 'changes_requested'. *)
Inductive TReviewState := commented | approved | changes_requested.

Definition state_string (s : TReviewState) : string :=
  match s with
  | commented => "commented"
  | approved => "approved"
  | changes_requested => "changes_requested"
  end.

Record TReview := { review_html_url : string; review_state : TReviewState }.

(** [changes] of a 'pull_request_review.edited' payload. *)
Record TBodyChange := { from : string }.
Record TChanges := { changes_body : option TBodyChange }.

Record TIssuePullRequest := { issue_pr_url : string }.

Record TIssue := {
  issue_number : Z;
  issue_title : string;
  issue_labels : list TLabel;
  issue_pull_request : option TIssuePullRequest;
}.

Record TComment := { comment_html_url : string }.

Record TPullRequestWebhookEventPayload := {
  number : Z;
  pull_request : TPullRequest;
}.

Record TPullRequestReviewWebhookEventPayload := {
  review_pull_request : TPullRequest;
  review : TReview;
  changes : option TChanges;
}.

Record TIssueCommentWebhookEventPayload := {
  issue : TIssue;
  comment : TComment;
}.

(** The event names whose payload the code casts to one of the types
    above. *)
Definition supported_event (name : string) : bool :=
  Js.includes ["pull_request"; "pull_request_review"; "issue_comment"] name.

(** [github.context.eventName] together with the shape of
    [github.context.payload] it determines. *)
Inductive Event :=
| PullRequestEvent (p : TPullRequestWebhookEventPayload)
| PullRequestReviewEvent (p : TPullRequestReviewWebhookEventPayload)
| IssueCommentEvent (p : TIssueCommentWebhookEventPayload)
| OtherEvent (name : string) (unsupported : supported_event name = false).

(** [github.context]: [action] and [sender] are the payload fields every
    shape may carry ([action] may be absent); [repo_owner] and [repo_repo]
    are [context.repo]. *)
Record Context := {
  event : Event;
  action : option string;
  sender : option TUser;
  repo_owner : string;
  repo_repo : string;
}.

Definition eventName (c : Context) : string :=
  match event c with
  | PullRequestEvent _ => "pull_request"
  | PullRequestReviewEvent _ => "pull_request_review"
  | IssueCommentEvent _ => "issue_comment"
  | OtherEvent name _ => name
  end.

(** [action === s] *)
Definition action_is (a : option string) (s : string) : bool :=
  match a with
  | Some x => String.eqb x s
  | None => false
  end.

(** [TInput] *)
Record TInput := {
  githubToken : string;
  botToken : string;
  channelId : string;
  webhookUrl : string;
  userMapping : gmap string JsVal;
}.

(** ** Slack message content *)

Inductive TextObject :=
| plain_text (text : string)
| mrkdwn (text : string).

Inductive ContextElement :=
| image (image_url : option string) (alt_text : string)
| mrkdwn_element (text : string).

Inductive KnownBlock :=
| header (text : TextObject)
| section (text : TextObject)
| divider
| context_block (elements : list ContextElement).

Record MessageAttachment := {
  attachment_color : option string;
  attachment_blocks : list KnownBlock;
}.

Record MessageContent := {
  blocks : list KnownBlock;
  attachments : list MessageAttachment;
}.

(** ** The outside world *)

(** Arguments of [web.chat.postMessage] and [webhook.send]. *)
Record PostArguments := {
  post_channel : option string;
  post_text : string;
  post_content : MessageContent;
}.

(** The part of the [chat.postMessage] response the code reads. *)
Record ResponseMetadata := { scopes : option (list string) }.
Record ChatPostMessageResponse := {
  response_ts : option string;
  response_metadata : option ResponseMetadata;
}.

(** Every call that leaves the process, in the order it is made.
    [core.debug] diagnostics are not traced. *)
Inductive Call :=
| core_info (msg : string)
| core_setFailed (msg : JsVal)
| octokit_pulls_get (token owner repo : string) (pull_number : Z)
| web_chat_postMessage (token : string) (args : PostArguments)
| web_reactions_add (token channel name timestamp : string)
| webhook_send (url : string) (args : PostArguments).

(** What the outside answers.  [Math_random_5] is
    [Math.floor(Math.random() * 5)]. *)
Record World := {
  context : Context;
  core_getInput : string → string;
  JSON_parse : string → Result JsVal;
  pulls_get : string → string → string → Z → Result TPullRequestDetail;
  chat_postMessage : string → PostArguments → Result ChatPostMessageResponse;
  reactions_add : string → string → string → string → Result unit;
  send : string → PostArguments → Result unit;
  Math_random_5 : fin 5;
}.

(** A computation appends to the trace of calls and returns or throws. *)
Definition M (A : Type) : Type := list Call → Result A * list Call.

Definition ret {A} (a : A) : M A := λ tr, (Ok a, tr).
Definition throw {A} (e : JsVal) : M A := λ tr, (Throw e, tr).
Definition bind {A B} (m : M A) (k : A → M B) : M B :=
  λ tr, match m tr with
        | (Ok a, tr') => k a tr'
        | (Throw e, tr') => (Throw e, tr')
        end.
(** An outside call [c] answered by [r]. *)
Definition call {A} (c : Call) (r : Result A) : M A := λ tr, (r, tr ++ [c]).
(** [try { m } catch (error) { handler(error) }] *)
Definition try_catch {A} (m : M A) (handler : JsVal → M A) : M A :=
  λ tr, match m tr with
        | (Ok a, tr') => (Ok a, tr')
        | (Throw e, tr') => handler e tr'
        end.
(** A pure computation that may throw. *)
Definition lift {A} (r : Result A) : M A := λ tr, (r, tr).

Notation "'do' x <- m ; k" := (bind m (λ x, k))
  (at level 10, x binder, m at level 100, k at level 200).
Notation "m ;; k" := (bind m (λ _, k))
  (at level 100, k at level 200, right associativity).

(** ** slack.ts *)

Module Slack.

Definition DEFAULT_TEXT : string :=
  "This is a message from a github pull request.".

(** [`${repository?.html_url}/tree/${name}`] *)
Definition generateBranchURL (repository : option TRepository) (name : string)
  : string :=
  match repository with
  | Some r => repo_html_url r
  | None => "undefined"
  end +:+ "/tree/" +:+ name.

(** [mapping[githubUser]] reads an own entry of the mapping or, without
    one, what the mapping inherits from [Object.prototype]. *)
Definition generateUser (githubUser : string) (mapping : gmap string JsVal)
  : string :=
  let slackMemberID := property mapping githubUser in
  if truthy slackMemberID
  then "<@" +:+ ToString slackMemberID +:+ "> (" +:+ githubUser +:+ ")"
  else githubUser.

Definition isUserReviewer (reviewer : TReviewer) : bool :=
  match reviewer with
  | ReviewerUser _ => true
  | ReviewerTeam _ => false
  end.

(** [.map(...)] to a string or [null], then [.filter(Boolean)], which
    also drops an empty string. *)
Definition getRequestedReviewers (requestedReviewers : TRequestedReviewers)
    (mapping : gmap string JsVal) : list string :=
  omap (λ o, match o with
             | Some s => if Js.truthy_string s then Some s else None
             | None => None
             end)
       (map (λ reviewer,
               match reviewer with
               | ReviewerUser u => Some (generateUser (login u) mapping)
               | ReviewerTeam _ => None
               end) requestedReviewers).

Definition getPullRequestDetail (w : World) (token owner repo : string)
    (pull_number : Z) : M (option TPullRequestDetail) :=
  if negb (Js.truthy_string token) then ret None
  else
    do data <- call (octokit_pulls_get token owner repo pull_number)
                    (pulls_get w token owner repo pull_number);
    ret (Some data).

(** The [let] variables of [buildMessageContent]. *)
Record Locals := {
  eventStatus : option string;
  title : option string;
  pullRequestNumber : option Z;
  head : option (string * string);
  base : option (string * string);
  changedFiles : option (string * Z);
  createdBy : option string;
  color : option string;
  message : option string;
  messageURL : option string;
  labels : list string;
  requestedReviewers : list string;
}.

(** [(eventStatus, color, message)] at the end of the 'pull_request' case,
    [eventStatus] having been set to [action]. *)
Definition pull_request_outcome (action : option string) (merged : option bool)
  : option string * option string * option string :=
  if action_is action "opened"
  then (action, Some "#2DA44E", Some "opened this pull request.")
  else if action_is action "reopened"
  then (action, Some "#0D4C8C", Some "reopened this pull request.")
  else if action_is action "closed"
  then if default false merged
       then (Some "merged", Some "#8250DF", Some "merged this pull request.")
       else (action, Some "#CF222E", Some "closed this pull request.")
  else (action, None, None).

(** The same for the 'pull_request_review' case, [eventStatus] having
    been set to ['review: ']. *)
Definition review_outcome (action : option string) (state : TReviewState)
  : option string * option string * option string :=
  let eventStatus := "review: " in
  if action_is action "submitted"
  then
    let state := state_string state in
    let eventStatus := eventStatus +:+ Js.replace "_" " " state in
    if String.eqb state "commented"
    then (Some eventStatus, Some "#BBDFFF", Some "reviewed this pull request.")
    else if String.eqb state "approved"
    then (Some eventStatus, Some "#2DA44E", Some "approved this pull request.")
    else if String.eqb state "changes_requested"
    then (Some eventStatus, Some "#CF222E",
          Some "requested changes on this pull request.")
    else (Some eventStatus, None, None)
  else if action_is action "edited"
  then (Some (eventStatus +:+ "updated a comment"), Some "#BBDFFF",
        Some "updated a review comment on this pull request.")
  else if action_is action "dismissed"
  then (Some (eventStatus +:+ "dismissed"), Some "#CF222E",
        Some "dismissed the review changes on this pull request.")
  else (Some eventStatus, None, None).

(** The same for the 'issue_comment' case. *)
Definition comment_outcome (action : option string)
  : option string * option string * option string :=
  if action_is action "created"
  then (Some "commented", Some "#BBDFFF",
        Some "commented on this pull request.")
  else if action_is action "edited"
  then (Some "updated a comment", Some "#BBDFFF",
        Some "updated a comment on this pull request.")
  else (None, None, None).

Definition branch (b : TBranch) : string * string :=
  (generateBranchURL (branch_repo b) (ref b), ref b).

Definition files_of (html_url : string) (changed_files : Z) : string * Z :=
  (html_url +:+ "/files", changed_files).

(** The [switch (eventName)] of [buildMessageContent]. *)
Definition collect (w : World) (input : TInput) : M Locals :=
  let ctx := context w in
  match event ctx with
  | PullRequestEvent p =>
      let pull_request := pull_request p in
      let '(eventStatus, color, message) :=
        pull_request_outcome (action ctx) (pr_merged pull_request) in
      ret {| eventStatus := eventStatus;
             title := Some (pr_title pull_request);
             pullRequestNumber := Some (number p);
             head := Some (branch (pr_head pull_request));
             base := Some (branch (pr_base pull_request));
             changedFiles :=
               Some (files_of (pr_html_url pull_request)
                              (pr_changed_files pull_request));
             createdBy := Some (login (pr_user pull_request));
             color := color;
             message := message;
             messageURL := Some (pr_html_url pull_request);
             labels := map label_name (pr_labels pull_request);
             requestedReviewers :=
               getRequestedReviewers (pr_requested_reviewers pull_request)
                                     (userMapping input) |}
  | PullRequestReviewEvent p =>
      let pull_request := review_pull_request p in
      let pullRequestNumber := pr_number pull_request in
      do pullRequestDetail <-
        getPullRequestDetail w (githubToken input) (repo_owner ctx)
                             (repo_repo ctx) pullRequestNumber;
      let '(eventStatus, color, message) :=
        review_outcome (action ctx) (review_state (review p)) in
      ret {| eventStatus := eventStatus;
             title := Some (pr_title pull_request);
             pullRequestNumber := Some pullRequestNumber;
             head := Some (branch (pr_head pull_request));
             base := Some (branch (pr_base pull_request));
             changedFiles :=
               match pullRequestDetail with
               | Some d =>
                   Some (files_of (detail_html_url d) (detail_changed_files d))
               | None => None
               end;
             createdBy := Some (login (pr_user pull_request));
             color := color;
             message := message;
             messageURL := Some (review_html_url (review p));
             labels := map label_name (pr_labels pull_request);
             requestedReviewers :=
               getRequestedReviewers (pr_requested_reviewers pull_request)
                                     (userMapping input) |}
  | IssueCommentEvent p =>
      let pullRequestNumber := issue_number (issue p) in
      do pullRequestDetail <-
        getPullRequestDetail w (githubToken input) (repo_owner ctx)
                             (repo_repo ctx) pullRequestNumber;
      let '(eventStatus, color, message) := comment_outcome (action ctx) in
      ret {| eventStatus := eventStatus;
             title := Some (issue_title (issue p));
             pullRequestNumber := Some pullRequestNumber;
             head := (λ d, branch (detail_head d)) <$> pullRequestDetail;
             base := (λ d, branch (detail_base d)) <$> pullRequestDetail;
             changedFiles :=
               (λ d, files_of (detail_html_url d) (detail_changed_files d))
                 <$> pullRequestDetail;
             createdBy :=
               match pullRequestDetail with
               | Some d => login <$> detail_user d
               | None => None
               end;
             color := color;
             message := message;
             messageURL := Some (comment_html_url (comment p));
             labels := map label_name (issue_labels (issue p));
             requestedReviewers :=
               match pullRequestDetail with
               | Some d =>
                   match detail_requested_reviewers d with
                   | Some rs => getRequestedReviewers rs (userMapping input)
                   | None => []
                   end
               | None => []
               end |}
  | OtherEvent _ _ =>
      call (core_info "Unsupported event type.") (Ok ()) ;;
      ret {| eventStatus := None; title := None; pullRequestNumber := None;
             head := None; base := None; changedFiles := None;
             createdBy := None; color := Some "#DDDDDD"; message := None;
             messageURL := None; labels := []; requestedReviewers := [] |}
  end.

(** [`${x}`] for an [x] that may be [undefined]. *)
Definition show (x : option string) : string := default "undefined" x.

Definition header_block (l : Locals) : KnownBlock :=
  header (plain_text
    ("PULL REQUEST #" +:+ show (Js.number_toString <$> pullRequestNumber l)
     +:+ " - " +:+ show (Js.toUpperCase <$> eventStatus l))).

Definition title_block (l : Locals) : KnownBlock :=
  section (mrkdwn (":small_blue_diamond: *Title:  " +:+ show (title l) +:+ "*")).

Definition head_block (head : string * string) : KnownBlock :=
  section (mrkdwn (":small_blue_diamond: *Head branch:*  <"
                   +:+ Js.join "|" [head.1; head.2] +:+ ">")).

Definition base_block (base : string * string) : KnownBlock :=
  section (mrkdwn (":small_blue_diamond: *Base branch:*  <"
                   +:+ Js.join "|" [base.1; base.2] +:+ ">")).

Definition files_block (changedFiles : string * Z) : KnownBlock :=
  section (mrkdwn (":small_blue_diamond: *Files changed:*  <"
                   +:+ Js.join "|" [changedFiles.1;
                                    Js.number_toString changedFiles.2]
                   +:+ ">")).

Definition labels_block (labels : list string) : KnownBlock :=
  section (mrkdwn (":label: *Labels:*  "
                   +:+ Js.join " "
                         (map (λ label, Js.backtick +:+ label +:+ Js.backtick)
                              labels))).

Definition reviewers_block (requestedReviewers : list string) : KnownBlock :=
  section (mrkdwn (":technologist: *Requested Reviewers:*  "
                   +:+ Js.join ", " requestedReviewers)).

Definition author_block (createdBy : string) (userMapping : gmap string JsVal)
  : KnownBlock :=
  section (mrkdwn (":technologist: *Created by:*  "
                   +:+ generateUser createdBy userMapping)).

(** [blocks.push(b)] *)
Definition push (blocks : list KnownBlock) (b : KnownBlock) : list KnownBlock :=
  blocks ++ [b].

(** The statements that fill [blocks], in program order. *)
Definition build_blocks (l : Locals) (userMapping : gmap string JsVal)
  : list KnownBlock :=
  let blocks := [header_block l; title_block l] in
  let blocks :=
    match head l with Some h => push blocks (head_block h) | None => blocks end in
  let blocks :=
    match base l with Some b => push blocks (base_block b) | None => blocks end in
  let blocks :=
    match changedFiles l with
    | Some c => push blocks (files_block c)
    | None => blocks
    end in
  let blocks :=
    if (0 <? length (labels l))%nat
    then push blocks (labels_block (labels l)) else blocks in
  let blocks :=
    if (0 <? length (requestedReviewers l))%nat
    then push blocks (reviewers_block (requestedReviewers l)) else blocks in
  let blocks :=
    match createdBy l with
    | Some c =>
        if Js.truthy_string c then push blocks (author_block c userMapping)
        else blocks
    | None => blocks
    end in
  push blocks divider.

(** [generateUser(sender?.login, userMapping)] inside the template: an
    absent sender reads [mapping["undefined"]] and prints as "undefined". *)
Definition sender_text (sender : option TUser) (l : Locals)
    (userMapping : gmap string JsVal) : string :=
  generateUser (show (login <$> sender)) userMapping +:+ " "
  +:+ default "do nothing" (message l).

Definition build_attachments (sender : option TUser) (l : Locals)
    (userMapping : gmap string JsVal) : list MessageAttachment :=
  [ {| attachment_color := color l;
       attachment_blocks :=
         [ context_block
             [ image (avatar_url <$> sender) "sender avatar image";
               mrkdwn_element (sender_text sender l userMapping);
               mrkdwn_element ("<" +:+ show (messageURL l)
                               +:+ "|View it on GitHub>") ];
           context_block
             [ image (Some "https://github.githubassets.com/favicon.ico")
                     "github favicon";
               mrkdwn_element
                 "From GitHub Action | Powered By <https://github.com/daint2git|daint2git>" ] ] |} ].

Definition buildMessageContent (w : World) (input : TInput) : M MessageContent :=
  let userMapping := userMapping input in
  let sender := sender (context w) in
  do l <- collect w input;
  ret {| blocks := build_blocks l userMapping;
         attachments := build_attachments sender l userMapping |}.

(** [postMessage] returns [{ts, metadata_scopes}]. *)
Definition postMessage (w : World) (input : TInput)
  : M (option string * option (list string)) :=
  call (core_info "Action: slack.postMessage: sending a message.") (Ok ()) ;;
  do content <- buildMessageContent w input;
  let args := {| post_channel := Some (channelId input);
                 post_text := DEFAULT_TEXT;
                 post_content := content |} in
  do response <- call (web_chat_postMessage (botToken input) args)
                      (chat_postMessage w (botToken input) args);
  call (core_info "Action: slack.postMessage: sent to Slack.") (Ok ()) ;;
  ret (response_ts response,
       match response_metadata response with
       | Some m => scopes m
       | None => None
       end).

Definition icons : vec string 5 :=
  [# "heart"; "heart_eyes"; "smiling_face_with_3_hearts"; "medal"; "100"].

Definition addReaction (w : World) (input : TInput) (timestamp : string)
  : M unit :=
  let iconName := icons !!! Math_random_5 w in
  call (core_info "Action: slack.addReaction: sending a message.") (Ok ()) ;;
  call (web_reactions_add (botToken input) (channelId input) iconName timestamp)
       (reactions_add w (botToken input) (channelId input) iconName timestamp) ;;
  call (core_info "Action: slack.addReaction: sent to Slack.") (Ok ()).

Definition postMessageWithWebhook (w : World) (input : TInput) : M unit :=
  call (core_info "Action: slack.postMessageWithWebhook: sending a message.")
       (Ok ()) ;;
  do content <- buildMessageContent w input;
  let args := {| post_channel := None;
                 post_text := DEFAULT_TEXT;
                 post_content := content |} in
  call (webhook_send (webhookUrl input) args) (send w (webhookUrl input) args) ;;
  call (core_info "Action: slack.postMessageWithWebhook: sent to Slack.")
       (Ok ()).

End Slack.

(** ** main.ts *)

Module Main.

(** The messages of the three configuration errors. *)
Definition user_mapping_message : string :=
  "Input " +:+ Js.dquote +:+ "user-mapping" +:+ Js.dquote
  +:+ " must be a json string.".

Definition no_credentials_message : string :=
  "Need to provide at least one input " +:+ Js.dquote
  +:+ "slack-bot-token" +:+ Js.dquote +:+ " or " +:+ Js.dquote
  +:+ "slack-webhook-url" +:+ Js.dquote +:+ ".".

Definition no_channel_message : string :=
  "Input " +:+ Js.dquote +:+ "slack-channel-id" +:+ Js.dquote
  +:+ " is required to run this action. An empty one has been provided.".

(** [new Error(message)] *)
Definition user_mapping_error : JsVal := JError user_mapping_message.
Definition no_credentials_error : JsVal := JError no_credentials_message.
Definition no_channel_error : JsVal := JError no_channel_message.

(** Index keys "0", "1", ... paired with the elements. *)
Definition indexed (l : list JsVal) : list (string * JsVal) :=
  imap (λ i x, (pretty i, x)) l.

(** The own enumerable string-keyed properties of a value: those of an
    object, the elements of an array, the code units of a string. *)
Definition own_properties (data : JsVal) : list (string * JsVal) :=
  match data with
  | JObj props => props
  | JArr items => indexed items
  | JStr s => indexed (JStr <$> Js.code_units s)
  | _ => []
  end.

(** [Object.keys(data)]: a [TypeError] on [undefined] and [null]. *)
Definition Object_keys (data : JsVal) : Result (list string) :=
  match data with
  | JUndefined | JNull =>
      Throw (JError "Cannot convert undefined or null to object")
  | _ => Ok ((own_properties data).*1)
  end.

Fixpoint assoc (k : string) (props : list (string * JsVal)) : option JsVal :=
  match props with
  | [] => None
  | (k', v) :: rest => if String.eqb k k' then Some v else assoc k rest
  end.

(** [data[k]] *)
Definition get (data : JsVal) (k : string) : JsVal :=
  default JUndefined (assoc k (own_properties data)).

(** The callback of the [reduce]: [{ ...r, [k]: value }] or [r]. *)
Definition reducer (data : JsVal) (r : gmap string JsVal) (k : string)
  : gmap string JsVal :=
  let value := get data k in
  if truthy value then <[k := value]> r else r.

Definition formatUserMapping (w : World) (mapping : string)
  : Result (gmap string JsVal) :=
  match JSON_parse w mapping with
  | Ok data =>
      match Object_keys data with
      | Ok keys => Ok (foldl (reducer data) ∅ keys)
      | Throw _ => Throw user_mapping_error
      end
  | Throw _ => Throw user_mapping_error
  end.

(** [a || b] on strings *)
Definition or_else (a b : string) : string :=
  if Js.truthy_string a then a else b.

Definition parseInput (w : World) : Result TInput :=
  let githubToken := core_getInput w "github-token" in
  let botToken := core_getInput w "slack-bot-token" in
  let channelId := core_getInput w "slack-channel-id" in
  let webhookUrl := core_getInput w "slack-webhook-url" in
  match formatUserMapping w (or_else (core_getInput w "user-mapping") "{}") with
  | Ok userMapping =>
      Ok {| githubToken := githubToken; botToken := botToken;
            channelId := channelId; webhookUrl := webhookUrl;
            userMapping := userMapping |}
  | Throw e => Throw e
  end.

(** [changes?.body], as a truth value *)
Definition body_changed (changes : option TChanges) : bool :=
  match changes with
  | Some c => bool_decide (is_Some (changes_body c))
  | None => false
  end.

Definition isValidEvent (ctx : Context) : bool :=
  match action ctx with
  | None => false
  | Some action =>
      if negb (Js.truthy_string action) then false
      else
        match event ctx with
        | PullRequestEvent _ =>
            Js.includes ["opened"; "reopened"; "closed"] action
        | PullRequestReviewEvent p =>
            if negb (Js.includes ["submitted"; "edited"; "dismissed"] action)
            then false
            else if String.eqb action "edited" && negb (body_changed (changes p))
            then false
            else true
        | IssueCommentEvent p =>
            if negb (Js.includes ["created"; "edited"] action) then false
            else if bool_decide (is_Some (issue_pull_request (issue p)))
            then true
            else false
        | OtherEvent _ _ => false
        end
  end.

(** The body of the [try] block of [run]. *)
Definition deliver (w : World) : M unit :=
  do input <- lift (parseInput w);
  if (String.length (botToken input) =? 0)%nat
     && (String.length (webhookUrl input) =? 0)%nat
  then throw no_credentials_error
  else if (0 <? String.length (botToken input))%nat
  then
    if (String.length (channelId input) =? 0)%nat
    then throw no_channel_error
    else
      do response <- Slack.postMessage w input;
      match response.1 with
      | Some ts =>
          if Js.truthy_string ts
             && match response.2 with
                | Some scopes => Js.includes scopes "reactions:write"
                | None => false
                end
          then Slack.addReaction w input ts
          else ret ()
      | None => ret ()
      end
  else if (0 <? String.length (webhookUrl input))%nat
  then Slack.postMessageWithWebhook w input
  else ret ().

Definition run (w : World) : M unit :=
  if negb (isValidEvent (context w))
  then call (core_info "Skipped Action.") (Ok ())
  else
    try_catch (deliver w)
              (λ error, call (core_setFailed (Utils.normalizeError error))
                             (Ok ())).

(** The trace of an invocation. *)
Definition trace (w : World) : list Call := (run w []).2.


Definition is_setFailed (c : Call) : bool :=
  match c with core_setFailed _ => true | _ => false end.

(** The process reports a failure. *)
Definition failed (w : World) : bool := existsb is_setFailed (trace w).

Definition is_delivery (c : Call) : bool :=
  match c with
  | web_chat_postMessage _ _ | webhook_send _ _ => true
  | _ => false
  end.

Definition is_reaction (c : Call) : bool :=
  match c with web_reactions_add _ _ _ _ => true | _ => false end.

End Main.

(** ** Traces *)

(** Calls that neither deliver, react nor report a failure. *)
Definition quiet (c : Call) : Prop :=
  Main.is_reaction c = false ∧ Main.is_delivery c = false
  ∧ Main.is_setFailed c = false.

(** A computation whose result and calls do not depend on the calls made
    before it, all its calls satisfying [P]. *)
Definition emits {A} (P : Call → Prop) (m : M A) (r : Result A)
    (ext : list Call) : Prop :=
  (∀ tr, m tr = (r, tr ++ ext)) ∧ Forall P ext.

(** The arguments of the two delivery calls. *)
Definition chat_args (input : TInput) (content : MessageContent)
  : PostArguments :=
  {| post_channel := Some (channelId input);
     post_text := Slack.DEFAULT_TEXT;
     post_content := content |}.

Definition webhook_args (content : MessageContent) : PostArguments :=
  {| post_channel := None;
     post_text := Slack.DEFAULT_TEXT;
     post_content := content |}.

(** [core.setFailed(normalizeError(error))] *)
Definition failure (error : JsVal) : Call :=
  core_setFailed (Utils.normalizeError error).

(** The calls of [run] after a successful [chat.postMessage]. *)
Definition reaction_part (w : World) (input : TInput)
    (resp : ChatPostMessageResponse) : list Call :=
  match response_ts resp with
  | Some ts =>
      if Js.truthy_string ts
         && match match response_metadata resp with
                  | Some m => scopes m
                  | None => None
                  end with
            | Some sc => Js.includes sc "reactions:write"
            | None => false
            end
      then
        let icon := Slack.icons !!! Math_random_5 w in
        [core_info "Action: slack.addReaction: sending a message.";
         web_reactions_add (botToken input) (channelId input) icon ts]
        ++ match reactions_add w (botToken input) (channelId input) icon ts with
           | Ok _ => [core_info "Action: slack.addReaction: sent to Slack."]
           | Throw e => [failure e]
           end
      else []
  | None => []
  end.

(** The calls of [run] on the chat-app path once the message builder has
    answered [rc]. *)
Definition chat_part (w : World) (input : TInput) (rc : Result MessageContent)
  : list Call :=
  match rc with
  | Throw e => [failure e]
  | Ok content =>
      web_chat_postMessage (botToken input) (chat_args input content)
      :: match chat_postMessage w (botToken input) (chat_args input content) with
         | Throw e => [failure e]
         | Ok resp =>
             core_info "Action: slack.postMessage: sent to Slack."
             :: reaction_part w input resp
         end
  end.

(** The same on the webhook path. *)
Definition webhook_part (w : World) (input : TInput)
    (rc : Result MessageContent) : list Call :=
  match rc with
  | Throw e => [failure e]
  | Ok content =>
      webhook_send (webhookUrl input) (webhook_args content)
      :: match send w (webhookUrl input) (webhook_args content) with
         | Throw e => [failure e]
         | Ok _ =>
             [core_info "Action: slack.postMessageWithWebhook: sent to Slack."]
         end
  end.

(** The six ways an invocation can go. *)
Inductive Outcome (w : World) : Prop :=
| skipped :
    Main.isValidEvent (context w) = false →
    Main.trace w = [core_info "Skipped Action."] →
    Outcome w
| bad_input e :
    Main.isValidEvent (context w) = true →
    Main.parseInput w = Throw e →
    Main.trace w = [failure e] →
    Outcome w
| no_credentials input :
    Main.isValidEvent (context w) = true →
    Main.parseInput w = Ok input →
    botToken input = "" → webhookUrl input = "" →
    Main.trace w = [failure Main.no_credentials_error] →
    Outcome w
| no_channel input :
    Main.isValidEvent (context w) = true →
    Main.parseInput w = Ok input →
    botToken input ≠ "" → channelId input = "" →
    Main.trace w = [failure Main.no_channel_error] →
    Outcome w
| chat_app input rc ext :
    Main.isValidEvent (context w) = true →
    Main.parseInput w = Ok input →
    botToken input ≠ "" → channelId input ≠ "" →
    emits quiet (Slack.buildMessageContent w input) rc ext →
    Main.trace w
    = core_info "Action: slack.postMessage: sending a message."
      :: ext ++ chat_part w input rc →
    Outcome w
| webhook input rc ext :
    Main.isValidEvent (context w) = true →
    Main.parseInput w = Ok input →
    botToken input = "" → webhookUrl input ≠ "" →
    emits quiet (Slack.buildMessageContent w input) rc ext →
    Main.trace w
    = core_info "Action: slack.postMessageWithWebhook: sending a message."
      :: ext ++ webhook_part w input rc →
    Outcome w.

(** ** Statements of the specification *)

Module Spec.

(** The accepted (event, action) combinations of the event classifier. *)
Definition has_body_change (ctx : Context) : Prop :=
  ∃ p c b, event ctx = PullRequestReviewEvent p
           ∧ changes p = Some c ∧ changes_body c = Some b.

Definition has_attached_pull_request (ctx : Context) : Prop :=
  ∃ p link, event ctx = IssueCommentEvent p
            ∧ issue_pull_request (issue p) = Some link.

Definition accepted (ctx : Context) : Prop :=
  ∃ a, action ctx = Some a ∧
    ((eventName ctx = "pull_request"
      ∧ a ∈ ["opened"; "reopened"; "closed"])
     ∨ (eventName ctx = "pull_request_review"
        ∧ a ∈ ["submitted"; "edited"; "dismissed"]
        ∧ (a = "edited" → has_body_change ctx))
     ∨ (eventName ctx = "issue_comment"
        ∧ a ∈ ["created"; "edited"]
        ∧ has_attached_pull_request ctx)).

(** What a reader of the message sees: the header line, the accent
    colour of the attachment, and the line naming the actor. *)
Definition status_line (c : MessageContent) : option string :=
  match blocks c with
  | header (plain_text t) :: _ => Some t
  | _ => None
  end.

Definition accent (c : MessageContent) : list (option string) :=
  attachment_color <$> attachments c.

Definition actor_line (c : MessageContent) : option string :=
  match attachments c with
  | [a] =>
      match attachment_blocks a with
      | context_block [_; mrkdwn_element t; _] :: _ => Some t
      | _ => None
      end
  | _ => None
  end.

(** The actor of the attachment line. *)
Definition actor (w : World) (input : TInput) : string :=
  Slack.generateUser (Slack.show (login <$> sender (context w)))
                     (userMapping input).

(** The status label, accent colour and verb phrase a run of the message
    builder settled on. *)
Definition outcome (l : Slack.Locals)
  : option string * option string * option string :=
  (Slack.eventStatus l, Slack.color l, Slack.message l).

(** The content [c] presents pull request [n] with the given status
    label, accent colour and verb phrase, [who] being the actor. *)
Definition renders (c : MessageContent) (n : Z) (who : string)
    (row : string * string * string) : Prop :=
  let '(status, colour, verb) := row in
  status_line c
  = Some ("PULL REQUEST #" +:+ Js.number_toString n +:+ " - "
          +:+ Js.toUpperCase status)
  ∧ accent c = [Some colour]
  ∧ actor_line c = Some (who +:+ " " +:+ verb).

Definition settled (l : Slack.Locals) (row : string * string * string) : Prop :=
  let '(status, colour, verb) := row in
  outcome l = (Some status, Some colour, Some verb).

(** The table of 4.3 for 'pull_request' events. *)
Definition pull_request_row (action : string) (merged : bool)
  : option (string * string * string) :=
  if String.eqb action "opened"
  then Some ("opened", "#2DA44E", "opened this pull request.")
  else if String.eqb action "reopened"
  then Some ("reopened", "#0D4C8C", "reopened this pull request.")
  else if String.eqb action "closed"
  then if merged
       then Some ("merged", "#8250DF", "merged this pull request.")
       else Some ("closed", "#CF222E", "closed this pull request.")
  else None.

(** The table of 4.3 for a submitted review: the status is "review: "
    followed by the state with its underscores replaced by spaces. *)
Definition review_row (state : TReviewState) : string * string * string :=
  ("review: " +:+ Js.replaceAll "_" " " (state_string state),
   match state with
   | commented => "#BBDFFF"
   | approved => "#2DA44E"
   | changes_requested => "#CF222E"
   end,
   match state with
   | commented => "reviewed this pull request."
   | approved => "approved this pull request."
   | changes_requested => "requested changes on this pull request."
   end).

(** The one block of an optional field, or none. *)
Definition optional {A} (field : option A) (block : A → KnownBlock)
  : list KnownBlock :=
  match field with
  | Some x => [block x]
  | None => []
  end.

Definition nonempty {A} (l : list A) : option (list A) :=
  match l with
  | [] => None
  | _ => Some l
  end.

(** An author is known when the name is present and not empty. *)
Definition known_author (createdBy : option string) : option string :=
  match createdBy with
  | Some "" => None
  | other => other
  end.

(** The fixed order of the sections. *)
Definition fixed_order (l : Slack.Locals) (userMapping : gmap string JsVal)
  : list KnownBlock :=
  [Slack.header_block l; Slack.title_block l]
  ++ optional (Slack.head l) Slack.head_block
  ++ optional (Slack.base l) Slack.base_block
  ++ optional (Slack.changedFiles l) Slack.files_block
  ++ optional (nonempty (Slack.labels l)) Slack.labels_block
  ++ optional (nonempty (Slack.requestedReviewers l)) Slack.reviewers_block
  ++ optional (known_author (Slack.createdBy l))
              (λ c, Slack.author_block c userMapping)
  ++ [divider].

(** The number of optional fields that are known. *)
Definition present {A} (field : option A) : nat :=
  match field with Some _ => 1 | None => 0 end.

Definition known_fields (l : Slack.Locals) : nat :=
  (present (Slack.head l) + present (Slack.base l)
   + present (Slack.changedFiles l) + present (nonempty (Slack.labels l))
   + present (nonempty (Slack.requestedReviewers l))
   + present (known_author (Slack.createdBy l)))%nat.

(** The parts of a message, named as the specification names them. *)
Inductive Part :=
| Header
| Title
| HeadBranch
| BaseBranch
| ChangedFiles
| Labels
| RequestedReviewers
| Author
| Divider.

(** The order the specification fixes. *)
Definition all_parts : list Part :=
  [Header; Title; HeadBranch; BaseBranch; ChangedFiles; Labels;
   RequestedReviewers; Author; Divider].

(** Whether a part appears: the header, the title and the divider always,
    a branch or the file count when it is known, a list when it is not
    empty, the author when the name is known and not empty. *)
Definition shown (l : Slack.Locals) (p : Part) : bool :=
  match p with
  | Header | Title | Divider => true
  | HeadBranch => match Slack.head l with Some _ => true | None => false end
  | BaseBranch => match Slack.base l with Some _ => true | None => false end
  | ChangedFiles =>
      match Slack.changedFiles l with Some _ => true | None => false end
  | Labels => match Slack.labels l with [] => false | _ => true end
  | RequestedReviewers =>
      match Slack.requestedReviewers l with [] => false | _ => true end
  | Author =>
      match Slack.createdBy l with
      | Some c => Js.truthy_string c
      | None => false
      end
  end.

(** The parts of one message: the fixed order, without the parts that do
    not appear. *)
Definition parts (l : Slack.Locals) : list Part :=
  List.filter (shown l) all_parts.

(** The words a part starts with. *)
Definition caption (p : Part) : string :=
  match p with
  | Header => "PULL REQUEST #"
  | Title => ":small_blue_diamond: *Title:  "
  | HeadBranch => ":small_blue_diamond: *Head branch:*  <"
  | BaseBranch => ":small_blue_diamond: *Base branch:*  <"
  | ChangedFiles => ":small_blue_diamond: *Files changed:*  <"
  | Labels => ":label: *Labels:*  "
  | RequestedReviewers => ":technologist: *Requested Reviewers:*  "
  | Author => ":technologist: *Created by:*  "
  | Divider => ""
  end.

(** A link [url|text>], the opening bracket being part of the caption. *)
Definition link_text (url text : string) : string :=
  Js.join "|" [url; text] +:+ ">".

(** What a part shows after its caption. *)
Definition shows (l : Slack.Locals) (userMapping : gmap string JsVal)
    (p : Part) : string :=
  match p with
  | Header =>
      default "undefined" (Js.number_toString <$> Slack.pullRequestNumber l)
      +:+ " - "
      +:+ default "undefined" (Js.toUpperCase <$> Slack.eventStatus l)
  | Title => default "undefined" (Slack.title l) +:+ "*"
  | HeadBranch =>
      match Slack.head l with
      | Some (url, name) => link_text url name
      | None => ""
      end
  | BaseBranch =>
      match Slack.base l with
      | Some (url, name) => link_text url name
      | None => ""
      end
  | ChangedFiles =>
      match Slack.changedFiles l with
      | Some (url, count) => link_text url (Js.number_toString count)
      | None => ""
      end
  | Labels =>
      Js.join " "
        (map (λ label, Js.backtick +:+ label +:+ Js.backtick) (Slack.labels l))
  | RequestedReviewers => Js.join ", " (Slack.requestedReviewers l)
  | Author =>
      match Slack.createdBy l with
      | Some c => Slack.generateUser c userMapping
      | None => ""
      end
  | Divider => ""
  end.

(** The block of a part: a header block for the header, a divider block
    for the divider, a section block with marked-up text for the others. *)
Definition block_of (l : Slack.Locals) (userMapping : gmap string JsVal)
    (p : Part) : KnownBlock :=
  match p with
  | Header => header (plain_text (caption p +:+ shows l userMapping p))
  | Divider => divider
  | _ => section (mrkdwn (caption p +:+ shows l userMapping p))
  end.

(** Whether a text starts with given words. *)
Fixpoint starts_with (words text : string) {struct words} : bool :=
  match words with
  | EmptyString => true
  | String a words' =>
      match text with
      | EmptyString => false
      | String b text' => Ascii.eqb a b && starts_with words' text'
      end
  end.

(** The part a block shows, read off the words it starts with. *)
Definition part_of (b : KnownBlock) : option Part :=
  match b with
  | header (plain_text t) =>
      if starts_with (caption Header) t then Some Header else None
  | section (mrkdwn t) =>
      List.find (λ p, starts_with (caption p) t)
                [Title; HeadBranch; BaseBranch; ChangedFiles; Labels;
                 RequestedReviewers; Author]
  | divider => Some Divider
  | _ => None
  end.

(** The response of [chat.postMessage] carries the message timestamp
    [ts] and metadata scopes that include "reactions:write". *)
Definition grants_reaction (resp : ChatPostMessageResponse) (ts : string)
  : Prop :=
  response_ts resp = Some ts ∧ ts ≠ ""
  ∧ ∃ m sc, response_metadata resp = Some m ∧ scopes m = Some sc
            ∧ "reactions:write" ∈ sc.


(** The input record [parseInput] builds around a parsed mapping. *)
Definition input_of (w : World) (um : gmap string JsVal) : TInput :=
  {| githubToken := core_getInput w "github-token";
     botToken := core_getInput w "slack-bot-token";
     channelId := core_getInput w "slack-channel-id";
     webhookUrl := core_getInput w "slack-webhook-url";
     userMapping := um |}.

End Spec.

(** ** Sample invocations *)

Module Sample.

Definition alice : TUser :=
  {| login := "alice"; avatar_url := "https://avatars.example/alice.png" |}.
Definition bob : TUser :=
  {| login := "bob"; avatar_url := "https://avatars.example/bob.png" |}.

Definition repository : TRepository :=
  {| repo_html_url := "https://github.com/acme/app" |}.

Definition pr (merged : bool) : TPullRequest :=
  {| pr_number := 7;
     pr_title := "Add feature X";
     pr_html_url := "https://github.com/acme/app/pull/7";
     pr_changed_files := 3;
     pr_head := {| ref := "feature-x"; branch_repo := Some repository |};
     pr_base := {| ref := "main"; branch_repo := Some repository |};
     pr_user := alice;
     pr_labels := [ {| label_name := "bug" |} ];
     pr_requested_reviewers := [ReviewerUser bob; ReviewerTeam "core"];
     pr_merged := Some merged |}.

Definition detail : TPullRequestDetail :=
  {| detail_html_url := "https://github.com/acme/app/pull/7";
     detail_changed_files := 3;
     detail_head := {| ref := "feature-x"; branch_repo := Some repository |};
     detail_base := {| ref := "main"; branch_repo := Some repository |};
     detail_user := Some alice;
     detail_requested_reviewers := Some [ReviewerUser bob] |}.

Definition pull_request_event (merged : bool) : Event :=
  PullRequestEvent {| number := 7; pull_request := pr merged |}.

Definition review_event (state : TReviewState) : Event :=
  PullRequestReviewEvent
    {| review_pull_request := pr false;
       review :=
         {| review_html_url :=
              "https://github.com/acme/app/pull/7#pullrequestreview-1";
            review_state := state |};
       changes := None |}.

Definition comment_event : Event :=
  IssueCommentEvent
    {| issue :=
         {| issue_number := 7; issue_title := "Add feature X";
            issue_labels := [];
            issue_pull_request :=
              Some {| issue_pr_url :=
                        "https://api.github.com/repos/acme/app/pulls/7" |} |};
       comment :=
         {| comment_html_url :=
              "https://github.com/acme/app/pull/7#issuecomment-1" |} |}.

Definition push_event : Event := OtherEvent "push" eq_refl.

(** The text [{"alice":"U123"}]. *)
Definition mapping_text : string :=
  "{" +:+ Js.dquote +:+ "alice" +:+ Js.dquote +:+ ":" +:+ Js.dquote
  +:+ "U123" +:+ Js.dquote +:+ "}".

(** The text [{"a":"X","b":""}]. *)
Definition example_text : string :=
  "{" +:+ Js.dquote +:+ "a" +:+ Js.dquote +:+ ":" +:+ Js.dquote +:+ "X"
  +:+ Js.dquote +:+ "," +:+ Js.dquote +:+ "b" +:+ Js.dquote +:+ ":"
  +:+ Js.dquote +:+ Js.dquote +:+ "}".

(** What [JSON.parse] answers on the texts used here. *)
Definition parse (text : string) : Result JsVal :=
  if String.eqb text "{}" then Ok (JObj [])
  else if String.eqb text mapping_text then Ok (JObj [("alice", JStr "U123")])
  else if String.eqb text example_text
  then Ok (JObj [("a", JStr "X"); ("b", JStr "")])
  else Throw (JError "Unexpected token in JSON").

Definition inputs (bot channel hook mapping : string) (name : string) : string :=
  if String.eqb name "slack-bot-token" then bot
  else if String.eqb name "slack-channel-id" then channel
  else if String.eqb name "slack-webhook-url" then hook
  else if String.eqb name "user-mapping" then mapping
  else "".

Definition response (ts : option string) (scopes : option (list string))
  : ChatPostMessageResponse :=
  {| response_ts := ts; response_metadata := Some {| scopes := scopes |} |}.

Definition world (ev : Event) (act : option string) (getInput : string → string)
    (resp : ChatPostMessageResponse) : World :=
  {| context := {| event := ev; action := act; sender := Some bob;
                   repo_owner := "acme"; repo_repo := "app" |};
     core_getInput := getInput;
     JSON_parse := parse;
     pulls_get := λ _ _ _ _, Ok detail;
     chat_postMessage := λ _ _, Ok resp;
     reactions_add := λ _ _ _ _, Ok ();
     send := λ _ _, Ok ();
     Math_random_5 := 2%fin |}.

Definition full_response : ChatPostMessageResponse :=
  response (Some "1700000000.000100") (Some ["chat:write"; "reactions:write"]).

Definition webhook_inputs : string → string :=
  inputs "" "" "https://hooks.slack.example/services/T0/B0/x" mapping_text.
Definition bot_inputs : string → string :=
  inputs "xoxb-1" "C024BE91L" "" mapping_text.
Definition no_inputs : string → string := inputs "" "" "" "".

Definition input : TInput :=
  {| githubToken := ""; botToken := ""; channelId := "";
     webhookUrl := "https://hooks.slack.example/services/T0/B0/x";
     userMapping := {[ "alice" := JStr "U123" ]} |}.


(** A runner whose [JSON.parse] gives [null] on the text "null" and the
    string "é" on any other text. *)
Definition mapping_world : World :=
  {| context := {| event := push_event; action := None; sender := Some bob;
                   repo_owner := "acme"; repo_repo := "app" |};
     core_getInput := no_inputs;
     JSON_parse := λ text, if String.eqb text "null" then Ok JNull
                           else Ok (JStr "é");
     pulls_get := λ _ _ _ _, Ok detail;
     chat_postMessage := λ _ _, Ok full_response;
     reactions_add := λ _ _ _ _, Ok ();
     send := λ _ _, Ok ();
     Math_random_5 := 0%fin |}.

End Sample.

(** ** Shapes of messages and traces *)

Module Shape.

(** The individual users among the requested reviewers. *)
Definition users_of (rs : TRequestedReviewers) : list TUser :=
  omap (λ r, match r with
             | ReviewerUser u => Some u
             | ReviewerTeam _ => None
             end) rs.

(** Status, colour and verb of an edited and of a dismissed review. *)
Definition review_action_row (action : string)
  : option (string * string * string) :=
  if String.eqb action "edited"
  then Some ("review: updated a comment", "#BBDFFF",
             "updated a review comment on this pull request.")
  else if String.eqb action "dismissed"
  then Some ("review: dismissed", "#CF222E",
             "dismissed the review changes on this pull request.")
  else None.

(** Status, colour and verb of a created and of an edited comment. *)
Definition comment_row (action : string) : option (string * string * string) :=
  if String.eqb action "created"
  then Some ("commented", "#BBDFFF", "commented on this pull request.")
  else if String.eqb action "edited"
  then Some ("updated a comment", "#BBDFFF",
             "updated a comment on this pull request.")
  else None.

(** The pull request whose detail the message builder asks for. *)
Definition fetch_number (ev : Event) : option Z :=
  match ev with
  | PullRequestReviewEvent p => Some (pr_number (review_pull_request p))
  | IssueCommentEvent p => Some (issue_number (issue p))
  | _ => None
  end.

(** The one call of [octokit.rest.pulls.get] an invocation can make. *)
Definition fetch_call (w : World) (n : Z) : Call :=
  octokit_pulls_get (core_getInput w "github-token") (repo_owner (context w))
                    (repo_repo (context w)) n.

Definition is_fetch (c : Call) : bool :=
  match c with octokit_pulls_get _ _ _ _ => true | _ => false end.

Definition is_info (c : Call) : bool :=
  match c with core_info _ => true | _ => false end.

(** The names [addReaction] chooses from. *)
Definition icon_names : list string := vec_to_list Slack.icons.

(** The second context block of the attachment. *)
Definition footer : KnownBlock :=
  context_block
    [ image (Some "https://github.githubassets.com/favicon.ico")
            "github favicon";
      mrkdwn_element
        "From GitHub Action | Powered By <https://github.com/daint2git|daint2git>" ].

(** The text of a section block. *)
Definition section_text (b : KnownBlock) : option string :=
  match b with
  | section (mrkdwn t) => Some t
  | _ => None
  end.

(** What [octokit.rest.pulls.get] answers to the message builder, when
    the builder asks: the event is a review or a comment and a token is
    configured. *)
Definition fetch_answer (w : World) (input : TInput)
  : option (Result TPullRequestDetail) :=
  match fetch_number (event (context w)) with
  | Some n =>
      if Js.truthy_string (githubToken input)
      then Some (pulls_get w (githubToken input) (repo_owner (context w))
                           (repo_repo (context w)) n)
      else None
  | None => None
  end.

(** The calls the message builder makes. *)
Definition builder_calls (w : World) (input : TInput) : list Call :=
  match event (context w) with
  | OtherEvent _ _ => [core_info "Unsupported event type."]
  | ev =>
      match fetch_number ev with
      | Some n =>
          if Js.truthy_string (githubToken input)
          then [octokit_pulls_get (githubToken input) (repo_owner (context w))
                                  (repo_repo (context w)) n]
          else []
      | None => []
      end
  end.

(** The branch link of a head or base section. *)
Definition branch_link (b : TBranch) : string :=
  "<" +:+ Js.join "|" [default "undefined" (repo_html_url <$> branch_repo b)
                       +:+ "/tree/" +:+ ref b; ref b] +:+ ">".

(** The builder answers [rc] after its calls, and throws exactly what the
    fetch of the detail throws. *)
Definition built (w : World) (input : TInput) (rc : Result MessageContent)
  : Prop :=
  (∀ tr, Slack.buildMessageContent w input tr
         = (rc, tr ++ builder_calls w input))
  ∧ ∀ e, rc = Throw e ↔ fetch_answer w input = Some (Throw e).

End Shape.

(** ** Properties *)

(** *** Strings and values *)

Lemma includes_elem_of (l : list string) (x : string) :
  Js.includes l x = true ↔ x ∈ l.
Proof.
  unfold Js.includes. induction l as [|y l IH]; simpl.
  - split; [discriminate | intros H; inversion H].
  - rewrite orb_true_iff, IH, String.eqb_eq, elem_of_cons. tauto.
Qed.

Lemma truthy_string_nonempty (s : string) :
  Js.truthy_string s = true ↔ s ≠ "".
Proof. destruct s; simpl; split; congruence. Qed.

(** *** The event classifier *)

Lemma eventName_supported (ctx : Context) :
  supported_event (eventName ctx) = true ↔
  (∃ p, event ctx = PullRequestEvent p)
  ∨ (∃ p, event ctx = PullRequestReviewEvent p)
  ∨ (∃ p, event ctx = IssueCommentEvent p).
Proof.
  unfold eventName. destruct (event ctx) as [p|p|p|name Hname]; simpl.
  - split; [eauto | reflexivity].
  - split; [eauto | reflexivity].
  - split; [eauto 6 | reflexivity].
  - split; [intros H; congruence|].
    intros [[? ?]|[[? ?]|[? ?]]]; discriminate.
Qed.

Lemma eventName_pull_request (ctx : Context) :
  eventName ctx = "pull_request" ↔ ∃ p, event ctx = PullRequestEvent p.
Proof.
  unfold eventName. destruct (event ctx) as [p|p|p|name Hname]; simpl.
  - split; eauto.
  - split; [discriminate | intros [? ?]; discriminate].
  - split; [discriminate | intros [? ?]; discriminate].
  - split; [intros -> | intros [? ?]]; discriminate.
Qed.

Lemma eventName_pull_request_review (ctx : Context) :
  eventName ctx = "pull_request_review"
  ↔ ∃ p, event ctx = PullRequestReviewEvent p.
Proof.
  unfold eventName. destruct (event ctx) as [p|p|p|name Hname]; simpl.
  - split; [discriminate | intros [? ?]; discriminate].
  - split; eauto.
  - split; [discriminate | intros [? ?]; discriminate].
  - split; [intros -> | intros [? ?]]; discriminate.
Qed.

Lemma eventName_issue_comment (ctx : Context) :
  eventName ctx = "issue_comment" ↔ ∃ p, event ctx = IssueCommentEvent p.
Proof.
  unfold eventName. destruct (event ctx) as [p|p|p|name Hname]; simpl.
  - split; [discriminate | intros [? ?]; discriminate].
  - split; [discriminate | intros [? ?]; discriminate].
  - split; eauto.
  - split; [intros -> | intros [? ?]]; discriminate.
Qed.

Lemma isValidEvent_sound (ctx : Context) :
  Main.isValidEvent ctx = true → Spec.accepted ctx.
Proof.
  unfold Main.isValidEvent, Spec.accepted.
  destruct (action ctx) as [a|] eqn:Ha; [|discriminate].
  destruct (Js.truthy_string a) eqn:Hne; cbn [negb]; [|discriminate].
  destruct (event ctx) as [p|p|p|name Hname] eqn:Hev; intros H.
  - exists a. split; [done|]. left. split.
    + apply eventName_pull_request. eauto.
    + by apply includes_elem_of.
  - exists a. split; [done|]. right; left.
    destruct (Js.includes _ a) eqn:Hin; simpl in H; [|discriminate].
    split; [apply eventName_pull_request_review; eauto|].
    split; [by apply includes_elem_of|].
    intros ->. simpl in H. unfold Main.body_changed in H.
    destruct (changes p) as [c|] eqn:Hc; simpl in H; [|discriminate].
    destruct (changes_body c) as [b|] eqn:Hb; [|discriminate].
    exists p, c, b. by rewrite Hev.
  - exists a. split; [done|]. right; right.
    destruct (Js.includes _ a) eqn:Hin; simpl in H; [|discriminate].
    split; [apply eventName_issue_comment; eauto|].
    split; [by apply includes_elem_of|].
    destruct (issue_pull_request (issue p)) as [link|] eqn:Hl; [|discriminate].
    exists p, link. by rewrite Hev.
  - discriminate.
Qed.

Lemma isValidEvent_complete (ctx : Context) :
  Spec.accepted ctx → Main.isValidEvent ctx = true.
Proof.
  unfold Main.isValidEvent, Spec.accepted.
  intros (a & -> & H).
  assert (Hne : ∀ l : list string, a ∈ l → "" ∉ l → Js.truthy_string a = true).
  { intros l Hin Hnot. apply truthy_string_nonempty. by intros ->. }
  destruct H as [(Hn & Hin)|[(Hn & Hin & Hbody)|(Hn & Hin & Hpr)]].
  - apply eventName_pull_request in Hn as [p ->].
    rewrite (Hne _ Hin) by (by rewrite <- includes_elem_of). cbn [negb].
    by apply includes_elem_of.
  - apply eventName_pull_request_review in Hn as [p Hev].
    rewrite (Hne _ Hin) by (by rewrite <- includes_elem_of). cbn [negb].
    rewrite Hev.
    apply includes_elem_of in Hin as Hin'. rewrite Hin'. simpl.
    destruct (String.eqb a "edited") eqn:He; [|done].
    apply String.eqb_eq in He.
    destruct (Hbody He) as (p' & c & b & Hev' & Hc & Hb).
    rewrite Hev in Hev'. injection Hev' as <-.
    unfold Main.body_changed. by rewrite Hc, Hb.
  - apply eventName_issue_comment in Hn as [p Hev].
    rewrite (Hne _ Hin) by (by rewrite <- includes_elem_of). cbn [negb].
    rewrite Hev.
    apply includes_elem_of in Hin as Hin'. rewrite Hin'. simpl.
    destruct Hpr as (p' & link & Hev' & Hl).
    rewrite Hev in Hev'. injection Hev' as <-. by rewrite Hl.
Qed.

(** C2: [isValidEvent] accepts exactly the combinations of the
    specification: 'pull_request' with opened, reopened or closed;
    'pull_request_review' with submitted, edited or dismissed, an edit
    needing a body change in its diff; 'issue_comment' with created or
    edited on an issue that carries a pull request.  An absent action and
    every other event name are rejected. *)
Theorem isValidEvent_accepts_exactly (ctx : Context) :
  (Main.isValidEvent ctx = true ↔ Spec.accepted ctx)
  ∧ (action ctx = None → Main.isValidEvent ctx = false)
  ∧ (supported_event (eventName ctx) = false → Main.isValidEvent ctx = false).
Proof.
  split; [split; [apply isValidEvent_sound | apply isValidEvent_complete]|].
  split.
  - intros Ha. unfold Main.isValidEvent. by rewrite Ha.
  - intros Hn. destruct (Main.isValidEvent ctx) eqn:Hv; [|done].
    apply isValidEvent_sound in Hv as (a & _ & H).
    exfalso. revert Hn.
    destruct H as [(-> & _)|[(-> & _)|(-> & _)]]; discriminate.
Qed.

(** *** utils.ts *)

Lemma stringify_defined (v : JsVal) :
  v ≠ JUndefined → (∀ n, v ≠ JFunction n) → ∃ s, Utils.stringify v = JStr s.
Proof.
  unfold Utils.stringify, Utils.JSON_stringify_2.
  destruct v as [| |[|]| | | | | |n]; simpl; intros Hv Hf; eauto;
    [by destruct Hv | by destruct (Hf n)].
Qed.

Lemma normalizeError_cases (v : JsVal) :
  (∃ s, Utils.normalizeError v = JStr s) ∨ Utils.normalizeError v = JUndefined.
Proof.
  destruct v; simpl; eauto; left; by apply stringify_defined.
Qed.




(** *** slack.ts : user display *)

Lemma inherited_truthy (k : string) (v : JsVal) :
  inherited k = Some v → truthy v = true.
Proof.
  unfold inherited.
  destruct (String.eqb k "constructor"); [by intros [= <-]|].
  destruct (String.eqb k "__proto__"); [by intros [= <-]|].
  destruct (Js.includes Object_prototype_methods k); [by intros [= <-]|done].
Qed.

(** How a user is displayed, case by case: an own truthy entry and an
    inherited property give a mention, an own falsy entry and an unknown
    name give the plain username. *)
Lemma generateUser_cases (githubUser : string) (mapping : gmap string JsVal) :
  (∀ M, mapping !! githubUser = Some M → truthy M = true →
     Slack.generateUser githubUser mapping
     = "<@" +:+ ToString M +:+ "> (" +:+ githubUser +:+ ")")
  ∧ (∀ M, mapping !! githubUser = Some M → truthy M = false →
     Slack.generateUser githubUser mapping = githubUser)
  ∧ (mapping !! githubUser = None → inherited githubUser = None →
     Slack.generateUser githubUser mapping = githubUser)
  ∧ (∀ f, mapping !! githubUser = None → inherited githubUser = Some f →
     Slack.generateUser githubUser mapping
     = "<@" +:+ ToString f +:+ "> (" +:+ githubUser +:+ ")").
Proof.
  unfold Slack.generateUser, property. repeat split.
  - intros M -> HM. by rewrite HM.
  - intros M -> HM. by rewrite HM.
  - by intros -> ->.
  - intros f -> Hf. rewrite Hf. simpl. by rewrite (inherited_truthy _ _ Hf).
Qed.

(** C7 holds of the code only for usernames that are not names of
    properties of [Object.prototype]: with the empty mapping the user
    "constructor" is not shown by the plain username but as a mention of
    the inherited function [Object]; "alice" and "bob" are shown as the
    specification says. *)
Theorem generateUser_inherited_name :
  Slack.generateUser "constructor" ∅
  = "<@function Object() { [native code] }> (constructor)"
  ∧ Slack.generateUser "constructor" ∅ ≠ "constructor"
  ∧ Slack.generateUser "toString" {[ "alice" := JStr "U123" ]}
    = "<@function toString() { [native code] }> (toString)"
  ∧ Slack.generateUser "alice" {[ "alice" := JStr "U123" ]} = "<@U123> (alice)"
  ∧ Slack.generateUser "bob" {[ "alice" := JStr "U123" ]} = "bob".
Proof. repeat split. discriminate. Qed.

(** *** main.ts : the user mapping *)

Lemma list_to_map_assoc (props : list (string * JsVal)) (k : string) :
  (list_to_map props : gmap string JsVal) !! k = Main.assoc k props.
Proof.
  induction props as [|[k' v] props IH]; simpl; [apply lookup_empty|].
  destruct (String.eqb k k') eqn:E.
  - apply String.eqb_eq in E as ->. apply lookup_insert_eq.
  - apply String.eqb_neq in E. by rewrite lookup_insert_ne.
Qed.

Lemma assoc_None_keys (props : list (string * JsVal)) (k : string) :
  Main.assoc k props = None ↔ k ∉ props.*1.
Proof.
  induction props as [|[k' v] props IH]; simpl.
  - split; [intros _ H; inversion H | done].
  - rewrite not_elem_of_cons. destruct (String.eqb k k') eqn:E.
    + apply String.eqb_eq in E as ->. split; [discriminate | intros [? _]; done].
    + apply String.eqb_neq in E. rewrite IH. tauto.
Qed.

(** The [reduce] keeps, for each key it visits, the value read from
    [data] when that value is truthy. *)
Lemma foldl_reducer_lookup (data : JsVal) (keys : list string)
    (r : gmap string JsVal) (k : string) :
  foldl (Main.reducer data) r keys !! k
  = if bool_decide (k ∈ keys) && truthy (Main.get data k)
    then Some (Main.get data k) else r !! k.
Proof.
  revert r. induction keys as [|k0 keys IH]; intros r; cbn [foldl].
  - rewrite bool_decide_eq_false_2; [done | apply not_elem_of_nil].
  - rewrite IH. destruct (decide (k ∈ keys)) as [Hin|Hin].
    + rewrite !bool_decide_eq_true_2 by (try apply elem_of_cons; auto). simpl.
      destruct (truthy (Main.get data k)) eqn:Ht; [done|].
      unfold Main.reducer. destruct (decide (k = k0)) as [->|Hne].
      * by rewrite Ht.
      * destruct (truthy (Main.get data k0)); [|done].
        by rewrite lookup_insert_ne.
    + rewrite (bool_decide_eq_false_2 (k ∈ keys)) by done. simpl.
      unfold Main.reducer. destruct (decide (k = k0)) as [->|Hne].
      * rewrite bool_decide_eq_true_2 by apply list_elem_of_here. simpl.
        destruct (truthy (Main.get data k0)); [apply lookup_insert_eq | done].
      * rewrite bool_decide_eq_false_2
          by (rewrite elem_of_cons; intros [?|?]; done).
        simpl. destruct (truthy (Main.get data k0)); [|done].
        by rewrite lookup_insert_ne.
Qed.

Lemma formatUserMapping_object (w : World) (mapping : string)
    (props : list (string * JsVal)) :
  JSON_parse w mapping = Ok (JObj props) →
  Main.formatUserMapping w mapping
  = Ok (filter (λ kv, truthy kv.2 = true) (list_to_map props)).
Proof.
  intros Hp. unfold Main.formatUserMapping. rewrite Hp. simpl. f_equal.
  apply map_eq. intros k.
  rewrite foldl_reducer_lookup, map_lookup_filter, list_to_map_assoc.
  unfold Main.get. simpl.
  destruct (Main.assoc k props) as [v|] eqn:Ha; simpl.
  - rewrite bool_decide_eq_true_2.
    + simpl. destruct (truthy v) eqn:Ht.
      * by rewrite option_guard_True.
      * rewrite option_guard_False; [done | congruence].
    + destruct (decide (k ∈ props.*1)) as [|Hn]; [done|].
      apply assoc_None_keys in Hn. congruence.
  - rewrite bool_decide_eq_false_2; [by rewrite lookup_empty|].
    by apply assoc_None_keys.
Qed.

(** C6: on an input that parses as a JSON object, [formatUserMapping]
    returns exactly the entries of the object whose values are truthy; on
    an input that does not parse, it throws the configuration error. *)
Theorem formatUserMapping_truthy_entries (w : World) (mapping : string) :
  (∀ props, JSON_parse w mapping = Ok (JObj props) →
     Main.formatUserMapping w mapping
     = Ok (filter (λ kv, truthy kv.2 = true) (list_to_map props))
     ∧ ∀ m, Main.formatUserMapping w mapping = Ok m →
         ∀ k v, m !! k = Some v
                ↔ Main.assoc k props = Some v ∧ truthy v = true)
  ∧ (JSON_parse w mapping = Ok (JObj [("a", JStr "X"); ("b", JStr "")]) →
     Main.formatUserMapping w mapping = Ok {[ "a" := JStr "X" ]})
  ∧ (∀ e, JSON_parse w mapping = Throw e →
     Main.formatUserMapping w mapping = Throw Main.user_mapping_error
     ∧ Main.user_mapping_error
       = JError ("Input " +:+ Js.dquote +:+ "user-mapping" +:+ Js.dquote
                 +:+ " must be a json string.")).
Proof.
  split; [|split].
  - intros props Hp. rewrite (formatUserMapping_object _ _ _ Hp).
    split; [done|]. intros m [= <-] k v.
    by rewrite map_lookup_filter_Some, list_to_map_assoc.
  - intros Hp. rewrite (formatUserMapping_object _ _ _ Hp). reflexivity.
  - intros e He. unfold Main.formatUserMapping. by rewrite He.
Qed.

(** *** slack.ts : the message builder *)

Lemma accepted_pull_request (ctx : Context) p :
  event ctx = PullRequestEvent p →
  Main.isValidEvent ctx = true →
  ∃ a, action ctx = Some a ∧ a ∈ ["opened"; "reopened"; "closed"].
Proof.
  intros Hev Hv. apply isValidEvent_sound in Hv as (a & Ha & H).
  exists a. split; [done|].
  destruct H as [(_ & Hin)|[(Hn & _)|(Hn & _)]]; [done| |].
  - apply eventName_pull_request_review in Hn as [p' Hp']. congruence.
  - apply eventName_issue_comment in Hn as [p' Hp']. congruence.
Qed.

(** The pushes of [build_blocks] produce the sections in the fixed
    order, an absent field adding nothing. *)
Lemma build_blocks_fixed_order (l : Slack.Locals)
    (userMapping : gmap string JsVal) :
  Slack.build_blocks l userMapping = Spec.fixed_order l userMapping.
Proof.
  unfold Slack.build_blocks, Spec.fixed_order, Slack.push.
  destruct (Slack.head l), (Slack.base l), (Slack.changedFiles l),
    (Slack.labels l), (Slack.requestedReviewers l),
    (Slack.createdBy l) as [[|]|]; reflexivity.
Qed.

Lemma status_line_built (l : Slack.Locals) (um : gmap string JsVal)
    (atts : list MessageAttachment) :
  Spec.status_line {| blocks := Slack.build_blocks l um; attachments := atts |}
  = Some ("PULL REQUEST #"
          +:+ Slack.show (Js.number_toString <$> Slack.pullRequestNumber l)
          +:+ " - " +:+ Slack.show (Js.toUpperCase <$> Slack.eventStatus l)).
Proof. by rewrite build_blocks_fixed_order. Qed.

Lemma rendered (w : World) (input : TInput) (l : Slack.Locals) (n : Z)
    (status colour verb : string) :
  Slack.pullRequestNumber l = Some n →
  Spec.outcome l = (Some status, Some colour, Some verb) →
  Spec.renders
    {| blocks := Slack.build_blocks l (userMapping input);
       attachments :=
         Slack.build_attachments (sender (context w)) l (userMapping input) |}
    n (Spec.actor w input) (status, colour, verb).
Proof.
  intros Hn [= Hs Hc Hm]. unfold Spec.renders.
  rewrite status_line_built, Hn, Hs. split; [done|].
  unfold Spec.accent, Spec.actor_line, Slack.build_attachments,
    Slack.sender_text, Spec.actor. simpl. by rewrite Hc, Hm.
Qed.

(** C1: for every 'pull_request' event the classifier accepts, the
    message builder returns, and the status label, accent colour and verb
    phrase are those of the table: opened / #2DA44E / "opened this pull
    request.", reopened / #0D4C8C / "reopened this pull request.", closed
    and merged: merged / #8250DF / "merged this pull request.", closed and
    not merged: closed / #CF222E / "closed this pull request.". *)
Theorem pull_request_outcome_table (w : World) (input : TInput)
    (tr : list Call) (p : TPullRequestWebhookEventPayload) :
  event (context w) = PullRequestEvent p →
  Main.isValidEvent (context w) = true →
  ∃ a l c,
    action (context w) = Some a
    ∧ a ∈ ["opened"; "reopened"; "closed"]
    ∧ Slack.collect w input tr = (Ok l, tr)
    ∧ Slack.buildMessageContent w input tr = (Ok c, tr)
    ∧ ∀ merged : bool,
        (a = "closed" → pr_merged (pull_request p) = Some merged) →
        ∃ row, Spec.pull_request_row a merged = Some row
               ∧ Spec.settled l row
               ∧ Spec.renders c (number p) (Spec.actor w input) row.
Proof.
  intros Hev Hv.
  destruct (accepted_pull_request _ _ Hev Hv) as (a & Ha & Hin).
  exists a.
  unfold Slack.buildMessageContent, Slack.collect, bind, ret.
  rewrite Hev, Ha.
  destruct (Slack.pull_request_outcome (Some a) (pr_merged (pull_request p)))
    as [[st co] me] eqn:Ho.
  eexists _, _. do 4 (split; [done|]).
  intros merged Hm.
  rewrite !elem_of_cons, elem_of_nil in Hin.
  destruct Hin as [->|[->|[->|[]]]].
  - eexists. split; [reflexivity|].
    injection Ho as <- <- <-. split; [done | by apply rendered].
  - eexists. split; [reflexivity|].
    injection Ho as <- <- <-. split; [done | by apply rendered].
  - rewrite (Hm eq_refl) in Ho.
    destruct merged; (eexists; split; [reflexivity|]);
      injection Ho as <- <- <-; (split; [done | by apply rendered]).
Qed.

Lemma pull_request_outcome_table_witness :
  ∃ l c,
    Slack.collect (Sample.world (Sample.pull_request_event true)
                                 (Some "closed") Sample.webhook_inputs
                                 Sample.full_response) Sample.input []
    = (Ok l, [])
    ∧ Spec.settled l ("merged", "#8250DF", "merged this pull request.")
    ∧ Spec.renders c 7 "bob" ("merged", "#8250DF", "merged this pull request.").
Proof.
  destruct (pull_request_outcome_table
              (Sample.world (Sample.pull_request_event true) (Some "closed")
                            Sample.webhook_inputs Sample.full_response)
              Sample.input []
              {| number := 7; pull_request := Sample.pr true |}
              eq_refl eq_refl)
    as (a & l & c & Ha & _ & Hl & _ & Hrow).
  injection Ha as <-.
  destruct (Hrow true (λ _, eq_refl)) as (row & Hr & Hs & Hc).
  injection Hr as <-.
  exists l, c. split; [exact Hl|]. split; [exact Hs | exact Hc].
Defined.

(** [replace] with a string pattern touches the first occurrence only. *)
Example replace_first_only :
  Js.replace "_" " " "a_b_c" = "a b_c" ∧ Js.replaceAll "_" " " "a_b_c" = "a b c".
Proof. done. Qed.

Lemma replace_state (state : TReviewState) :
  Js.replace "_" " " (state_string state)
  = Js.replaceAll "_" " " (state_string state).
Proof. by destruct state. Qed.

Lemma review_outcome_submitted (state : TReviewState) :
  Slack.review_outcome (Some "submitted") state
  = let '(status, colour, verb) := Spec.review_row state in
    (Some status, Some colour, Some verb).
Proof. by destruct state. Qed.

(** C3: for every accepted 'pull_request_review' event with action
    'submitted', the status label is "review: " followed by the review
    state with its underscores replaced by spaces; 'commented' gives
    #BBDFFF and "reviewed this pull request.", 'approved' gives #2DA44E and
    "approved this pull request.", 'changes_requested' gives #CF222E,
    "requested changes on this pull request." and the status "review:
    changes requested".  The builder returns this content whenever the
    fetch of the pull request detail does not throw. *)
Theorem submitted_review_outcome (w : World) (input : TInput)
    (tr : list Call) (p : TPullRequestReviewWebhookEventPayload) :
  event (context w) = PullRequestReviewEvent p →
  Main.isValidEvent (context w) = true →
  action (context w) = Some "submitted" →
  let state := review_state (review p) in
  let n := pr_number (review_pull_request p) in
  let fetch :=
    Slack.getPullRequestDetail w (githubToken input) (repo_owner (context w))
                               (repo_repo (context w)) n tr in
  (∀ d tr', fetch = (Ok d, tr') →
     ∃ l c, Slack.collect w input tr = (Ok l, tr')
            ∧ Slack.buildMessageContent w input tr = (Ok c, tr')
            ∧ Spec.settled l (Spec.review_row state)
            ∧ Spec.renders c n (Spec.actor w input) (Spec.review_row state))
  ∧ (∀ e tr', fetch = (Throw e, tr') →
       Slack.buildMessageContent w input tr = (Throw e, tr'))
  ∧ (Spec.review_row state).1.1
    = "review: " +:+ Js.replaceAll "_" " " (state_string state)
  ∧ Spec.review_row commented
    = ("review: commented", "#BBDFFF", "reviewed this pull request.")
  ∧ Spec.review_row approved
    = ("review: approved", "#2DA44E", "approved this pull request.")
  ∧ Spec.review_row changes_requested
    = ("review: changes requested", "#CF222E",
       "requested changes on this pull request.").
Proof.
  intros Hev Hv Ha state n fetch.
  split; [|split; [|by repeat split]].
  - intros d tr' Hf.
    unfold Slack.buildMessageContent, Slack.collect, bind, ret.
    rewrite Hev. fold n. fold fetch. rewrite Hf, Ha. fold state.
    rewrite review_outcome_submitted.
    destruct (Spec.review_row state) as [[status colour] verb].
    eexists _, _. do 2 (split; [reflexivity|]).
    split; [done | by apply rendered].
  - intros e tr' Hf.
    unfold Slack.buildMessageContent, Slack.collect, bind.
    rewrite Hev. fold n. fold fetch. by rewrite Hf.
Qed.

Lemma submitted_review_outcome_witness :
  ∃ l c,
    Slack.collect (Sample.world (Sample.review_event changes_requested)
                                 (Some "submitted") Sample.bot_inputs
                                 Sample.full_response) Sample.input []
    = (Ok l, [])
    ∧ Spec.settled l ("review: changes requested", "#CF222E",
                      "requested changes on this pull request.")
    ∧ Spec.renders c 7 "bob"
        ("review: changes requested", "#CF222E",
         "requested changes on this pull request.").
Proof.
  destruct (submitted_review_outcome
              (Sample.world (Sample.review_event changes_requested)
                            (Some "submitted") Sample.bot_inputs
                            Sample.full_response)
              Sample.input []
              {| review_pull_request := Sample.pr false;
                 review :=
                   {| review_html_url :=
                        "https://github.com/acme/app/pull/7#pullrequestreview-1";
                      review_state := changes_requested |};
                 changes := None |}
              eq_refl eq_refl eq_refl)
    as (Hok & _).
  destruct (Hok None [] eq_refl) as (l & c & Hl & _ & Hs & Hc).
  exists l, c. split; [exact Hl|]. split; [exact Hs | exact Hc].
Defined.

Lemma parts_fixed_order (l : Slack.Locals) (userMapping : gmap string JsVal) :
  Spec.fixed_order l userMapping
  = Spec.block_of l userMapping <$> Spec.parts l.
Proof.
  destruct l as [? ? ? [[? ?]|] [[? ?]|] [[? ?]|] [[|? ?]|] ? ? ?
                   [|? ?] [|? ?]];
    reflexivity.
Qed.

Lemma part_of_block_of (l : Slack.Locals) (userMapping : gmap string JsVal)
    (p : Spec.Part) :
  Spec.part_of (Spec.block_of l userMapping p) = Some p.
Proof. destruct p; reflexivity. Qed.

Lemma parts_sublist (l : Slack.Locals) : sublist (Spec.parts l) Spec.all_parts.
Proof.
  unfold Spec.parts. generalize Spec.all_parts. intros ps.
  induction ps as [|p ps IH]; simpl; [constructor|].
  destruct (Spec.shown l p); by constructor.
Qed.

(** C4: the blocks of every message the builder returns are, in this
    order: header, title, head branch (when known), base branch (when
    known), changed files (when known), labels (when the list is not
    empty), requested reviewers (when the list is not empty), author (when
    known), divider; a field that is absent adds no block.  Each block
    starts with the words of its part and shows the field of its part:
    "PULL REQUEST #", "Title:", "Head branch:", "Base branch:",
    "Files changed:", "Labels:", "Requested Reviewers:", "Created by:". *)
Theorem sections_in_fixed_order (w : World) (input : TInput) (tr : list Call) :
  (∀ c tr', Slack.buildMessageContent w input tr = (Ok c, tr') →
     ∃ l, Slack.collect w input tr = (Ok l, tr')
          ∧ blocks c = Spec.fixed_order l (userMapping input)
          ∧ length (blocks c) = (3 + Spec.known_fields l)%nat
          ∧ blocks c = Spec.block_of l (userMapping input) <$> Spec.parts l
          ∧ Spec.part_of <$> blocks c = Some <$> Spec.parts l
          ∧ sublist (Spec.parts l) Spec.all_parts
          ∧ (∀ p, p ∈ Spec.parts l ↔ Spec.shown l p = true))
  ∧ (∀ l tr', Slack.collect w input tr = (Ok l, tr') →
       ∃ c, Slack.buildMessageContent w input tr = (Ok c, tr')
            ∧ blocks c = Spec.fixed_order l (userMapping input)
            ∧ blocks c = Spec.block_of l (userMapping input) <$> Spec.parts l).
Proof.
  unfold Slack.buildMessageContent, bind, ret. split.
  - intros c tr' H.
    destruct (Slack.collect w input tr) as [[l|e] tr0]; [|discriminate].
    injection H as <- <-. exists l. split; [done|]. cbn [blocks].
    rewrite build_blocks_fixed_order. split; [done|]. split.
    { unfold Spec.fixed_order, Spec.known_fields.
      destruct (Slack.head l), (Slack.base l), (Slack.changedFiles l),
        (Slack.labels l), (Slack.requestedReviewers l),
        (Slack.createdBy l) as [[|]|]; reflexivity. }
    split; [apply parts_fixed_order|]. split.
    { rewrite parts_fixed_order, <- list_fmap_compose.
      apply list_fmap_ext. intros i p _. apply part_of_block_of. }
    split; [apply parts_sublist|].
    intros p. unfold Spec.parts. rewrite list_elem_of_In, filter_In.
    split; [tauto|]. intros Hp. split; [|done].
    unfold Spec.all_parts. destruct p; cbn [In]; tauto.
  - intros l tr' ->. eexists. split; [reflexivity|]. cbn [blocks].
    rewrite build_blocks_fixed_order. split; [done | apply parts_fixed_order].
Qed.

Lemma sections_in_fixed_order_witness :
  ∃ c l tr',
    Slack.buildMessageContent
      (Sample.world (Sample.pull_request_event false) (Some "opened")
                    Sample.webhook_inputs Sample.full_response)
      Sample.input [] = (Ok c, tr')
    ∧ Slack.collect
        (Sample.world (Sample.pull_request_event false) (Some "opened")
                      Sample.webhook_inputs Sample.full_response)
        Sample.input [] = (Ok l, tr')
    ∧ Spec.parts l = Spec.all_parts
    ∧ Spec.part_of <$> blocks c = Some <$> Spec.all_parts
    ∧ blocks c
      = [header (plain_text "PULL REQUEST #7 - OPENED");
         section (mrkdwn ":small_blue_diamond: *Title:  Add feature X*");
         section (mrkdwn ":small_blue_diamond: *Head branch:*  <https://github.com/acme/app/tree/feature-x|feature-x>");
         section (mrkdwn ":small_blue_diamond: *Base branch:*  <https://github.com/acme/app/tree/main|main>");
         section (mrkdwn ":small_blue_diamond: *Files changed:*  <https://github.com/acme/app/pull/7/files|3>");
         section (mrkdwn ":label: *Labels:*  `bug`");
         section (mrkdwn ":technologist: *Requested Reviewers:*  bob");
         section (mrkdwn ":technologist: *Created by:*  <@U123> (alice)");
         divider].
Proof.
  destruct (sections_in_fixed_order
              (Sample.world (Sample.pull_request_event false) (Some "opened")
                            Sample.webhook_inputs Sample.full_response)
              Sample.input []) as (H & _).
  destruct (H _ _ eq_refl) as (l & Hl & _ & _ & Hb & Hp & _).
  injection Hl as <-.
  eexists _, _, _. split; [reflexivity|].
  split; [reflexivity|]. split; [reflexivity|].
  split; [exact Hp | exact Hb].
Defined.

(** *** main.ts : the run *)

Lemma emits_ret {A} (P : Call → Prop) (a : A) : emits P (ret a) (Ok a) [].
Proof. split; [intros tr; unfold ret; by rewrite app_nil_r | constructor]. Qed.

Lemma emits_call {A} (P : Call → Prop) (c : Call) (r : Result A) :
  P c → emits P (call c r) r [c].
Proof. intros Hc. split; [done | by repeat constructor]. Qed.

Lemma emits_bind_ok {A B} (P : Call → Prop) (m : M A) (k : A → M B) a e1 r e2 :
  emits P m (Ok a) e1 → emits P (k a) r e2 → emits P (bind m k) r (e1 ++ e2).
Proof.
  intros [H1 F1] [H2 F2]. split; [|by apply Forall_app].
  intros tr. unfold bind. by rewrite H1, H2, app_assoc.
Qed.

Lemma emits_bind_throw {A B} (P : Call → Prop) (m : M A) (k : A → M B) e e1 :
  emits P m (Throw e) e1 → emits P (bind m k) (Throw e) e1.
Proof.
  intros [H1 F1]. split; [|done]. intros tr. unfold bind. by rewrite H1.
Qed.

Lemma getPullRequestDetail_quiet (w : World) (token owner repo : string)
    (n : Z) :
  ∃ r ext, emits quiet (Slack.getPullRequestDetail w token owner repo n) r ext.
Proof.
  unfold Slack.getPullRequestDetail.
  destruct (Js.truthy_string token); simpl.
  - destruct (pulls_get w token owner repo n) as [d|e].
    + eexists _, _. eapply emits_bind_ok; [by apply emits_call|apply emits_ret].
    + eexists _, _. apply emits_bind_throw. by apply emits_call.
  - eexists _, _. apply emits_ret.
Qed.

Lemma collect_quiet (w : World) (input : TInput) :
  ∃ r ext, emits quiet (Slack.collect w input) r ext.
Proof.
  unfold Slack.collect. destruct (event (context w)) as [p|p|p|name Hname].
  - destruct (Slack.pull_request_outcome _ _) as [[? ?] ?].
    eexists _, _. apply emits_ret.
  - destruct (getPullRequestDetail_quiet w (githubToken input)
                (repo_owner (context w)) (repo_repo (context w))
                (pr_number (review_pull_request p))) as ([d|e] & ext & H).
    + destruct (Slack.review_outcome _ _) as [[? ?] ?].
      eexists _, _. eapply emits_bind_ok; [exact H | apply emits_ret].
    + eexists _, _. apply emits_bind_throw, H.
  - destruct (getPullRequestDetail_quiet w (githubToken input)
                (repo_owner (context w)) (repo_repo (context w))
                (issue_number (issue p))) as ([d|e] & ext & H).
    + destruct (Slack.comment_outcome _) as [[? ?] ?].
      eexists _, _. eapply emits_bind_ok; [exact H | apply emits_ret].
    + eexists _, _. apply emits_bind_throw, H.
  - eexists _, _. eapply emits_bind_ok; [by apply emits_call | apply emits_ret].
Qed.

Lemma buildMessageContent_quiet (w : World) (input : TInput) :
  ∃ r ext, emits quiet (Slack.buildMessageContent w input) r ext.
Proof.
  unfold Slack.buildMessageContent.
  destruct (collect_quiet w input) as ([l|e] & ext & H).
  - eexists _, _. eapply emits_bind_ok; [exact H | apply emits_ret].
  - eexists _, _. apply emits_bind_throw, H.
Qed.

Lemma postMessage_trace (w : World) (input : TInput) :
  ∃ rc ext,
    emits quiet (Slack.buildMessageContent w input) rc ext
    ∧ ∀ tr,
        Slack.postMessage w input tr
        = let sending :=
            core_info "Action: slack.postMessage: sending a message." in
          match rc with
          | Throw e => (Throw e, tr ++ sending :: ext)
          | Ok content =>
              let post :=
                web_chat_postMessage (botToken input) (chat_args input content) in
              match chat_postMessage w (botToken input) (chat_args input content)
              with
              | Throw e => (Throw e, tr ++ sending :: ext ++ [post])
              | Ok response =>
                  (Ok (response_ts response,
                       match response_metadata response with
                       | Some m => scopes m
                       | None => None
                       end),
                   tr ++ sending :: ext
                      ++ [post;
                          core_info "Action: slack.postMessage: sent to Slack."])
              end
          end.
Proof.
  destruct (buildMessageContent_quiet w input) as (rc & ext & H).
  exists rc, ext. split; [done|]. destruct H as [H _].
  intros tr. unfold Slack.postMessage, bind, call. rewrite H.
  destruct rc as [content|e]; simpl.
  - fold (chat_args input content).
    destruct (chat_postMessage w (botToken input) (chat_args input content));
      simpl; unfold ret; f_equal; rewrite <- ?app_assoc; simpl; try done.
  - by rewrite <- app_assoc.
Qed.

Lemma postMessageWithWebhook_trace (w : World) (input : TInput) :
  ∃ rc ext,
    emits quiet (Slack.buildMessageContent w input) rc ext
    ∧ ∀ tr,
        Slack.postMessageWithWebhook w input tr
        = let sending :=
            core_info "Action: slack.postMessageWithWebhook: sending a message."
          in
          match rc with
          | Throw e => (Throw e, tr ++ sending :: ext)
          | Ok content =>
              let post := webhook_send (webhookUrl input) (webhook_args content)
              in
              match send w (webhookUrl input) (webhook_args content) with
              | Throw e => (Throw e, tr ++ sending :: ext ++ [post])
              | Ok _ =>
                  (Ok (),
                   tr ++ sending :: ext
                      ++ [post;
                          core_info
                            "Action: slack.postMessageWithWebhook: sent to Slack."])
              end
          end.
Proof.
  destruct (buildMessageContent_quiet w input) as (rc & ext & H).
  exists rc, ext. split; [done|]. destruct H as [H _].
  intros tr. unfold Slack.postMessageWithWebhook, bind, call. rewrite H.
  destruct rc as [content|e]; simpl.
  - fold (webhook_args content).
    destruct (send w (webhookUrl input) (webhook_args content)) as [[]|];
      simpl; f_equal; rewrite <- ?app_assoc; simpl; try done.
  - by rewrite <- app_assoc.
Qed.

Lemma addReaction_trace (w : World) (input : TInput) (ts : string)
    (tr : list Call) :
  Slack.addReaction w input ts tr
  = let icon := Slack.icons !!! Math_random_5 w in
    let react :=
      web_reactions_add (botToken input) (channelId input) icon ts in
    let sending := core_info "Action: slack.addReaction: sending a message." in
    match reactions_add w (botToken input) (channelId input) icon ts with
    | Ok _ =>
        (Ok (),
         tr ++ [sending; react;
                core_info "Action: slack.addReaction: sent to Slack."])
    | Throw e => (Throw e, tr ++ [sending; react])
    end.
Proof.
  unfold Slack.addReaction, bind, call. cbv zeta.
  destruct (reactions_add w _ _ _ ts) as [[]|];
    rewrite <- ?app_assoc; reflexivity.
Qed.

Lemma length_zero (s : string) : (String.length s =? 0)%nat = true ↔ s = "".
Proof. destruct s; simpl; split; congruence. Qed.

Lemma length_positive_negb (s : string) :
  (0 <? String.length s)%nat = negb (String.length s =? 0)%nat.
Proof. by destruct s. Qed.

Lemma length_nonzero (s : string) : (String.length s =? 0)%nat = false ↔ s ≠ "".
Proof. destruct s; simpl; split; done. Qed.

Ltac trace_eq :=
  unfold call, ret; cbn [fst snd app]; rewrite <- ?app_assoc; reflexivity.

(** Every invocation goes one of the six ways. *)
Lemma run_outcome (w : World) : Outcome w.
Proof.
  destruct (Main.isValidEvent (context w)) eqn:Hv.
  2:{ apply skipped; [done|]. unfold Main.trace, Main.run. by rewrite Hv. }
  assert (Ht : Main.trace w
               = (try_catch (Main.deliver w)
                    (λ error, call (failure error) (Ok ())) []).2).
  { unfold Main.trace, Main.run. by rewrite Hv. }
  unfold try_catch, Main.deliver, bind, lift, throw in Ht.
  destruct (Main.parseInput w) as [input|e] eqn:Hp.
  2:{ by eapply bad_input. }
  rewrite !length_positive_negb in Ht.
  destruct (String.length (botToken input) =? 0)%nat eqn:Hb;
    [apply length_zero in Hb | apply length_nonzero in Hb];
    cbn [andb negb] in Ht.
  - destruct (String.length (webhookUrl input) =? 0)%nat eqn:Hu;
      [apply length_zero in Hu | apply length_nonzero in Hu];
      cbn [negb] in Ht.
    + by eapply no_credentials.
    + destruct (postMessageWithWebhook_trace w input) as (rc & ext & Hq & Hw).
      rewrite Hw in Ht. eapply webhook; try done.
      rewrite Ht. unfold webhook_part.
      destruct rc as [content|e]; [|done].
      destruct (send w (webhookUrl input) (webhook_args content)) as [[]|];
        trace_eq.
  - destruct (String.length (channelId input) =? 0)%nat eqn:Hc;
      [apply length_zero in Hc | apply length_nonzero in Hc].
    + by eapply no_channel.
    + destruct (postMessage_trace w input) as (rc & ext & Hq & Hw).
      rewrite Hw in Ht. eapply chat_app; try done.
      rewrite Ht. unfold chat_part.
      destruct rc as [content|e]; [|done].
      destruct (chat_postMessage w (botToken input) (chat_args input content))
        as [resp|e]; [|trace_eq].
      unfold reaction_part. cbn [fst snd].
      destruct (response_ts resp) as [ts|]; [|trace_eq].
      destruct (Js.truthy_string ts && _); [|trace_eq].
      rewrite addReaction_trace. cbv zeta.
      destruct (reactions_add w _ _ _ ts) as [[]|]; trace_eq.
Qed.

(** After a successful post, either the response grants the reaction and
    the reaction call follows, or no call follows at all. *)
Lemma reaction_part_cases (w : World) (input : TInput)
    (resp : ChatPostMessageResponse) :
  (∃ ts tail,
     Spec.grants_reaction resp ts
     ∧ reaction_part w input resp
       = core_info "Action: slack.addReaction: sending a message."
         :: web_reactions_add (botToken input) (channelId input)
              (Slack.icons !!! Math_random_5 w) ts
         :: tail
     ∧ Forall (λ c, Main.is_reaction c = false ∧ Main.is_delivery c = false)
              tail)
  ∨ ((∀ ts, ¬ Spec.grants_reaction resp ts) ∧ reaction_part w input resp = []).
Proof.
  unfold reaction_part, Spec.grants_reaction.
  destruct (response_ts resp) as [ts|]; [|right; split; [|done]].
  2:{ intros ts (? & _); discriminate. }
  destruct (Js.truthy_string ts) eqn:Hts; cbn [andb].
  2:{ right. split; [|done]. intros ts' ([= <-] & Hne & _).
      apply truthy_string_nonempty in Hne. congruence. }
  destruct (response_metadata resp) as [m|].
  2:{ right. split; [|done]. intros ts' (_ & _ & m & sc & ? & _). discriminate. }
  destruct (scopes m) as [sc|] eqn:Hsc.
  2:{ right. split; [|done].
      intros ts' (_ & _ & m' & sc & [= <-] & ? & _). congruence. }
  destruct (Js.includes sc "reactions:write") eqn:Hin.
  2:{ right. split; [|done].
      intros ts' (_ & _ & m' & sc' & [= <-] & Hsc' & Hin').
      apply includes_elem_of in Hin'. congruence. }
  left. eexists ts, _. split; [|split; [reflexivity|]].
  - split; [done|]. split; [by apply truthy_string_nonempty|].
    exists m, sc. by rewrite <- includes_elem_of.
  - destruct (reactions_add w _ _ _ ts) as [[]|]; by repeat constructor.
Qed.

Lemma quiet_not_reaction (ext : list Call) (c : Call) :
  Forall quiet ext → c ∈ ext → Main.is_reaction c = false.
Proof. intros H Hc. rewrite Forall_forall in H. by destruct (H c Hc). Qed.

Lemma quiet_not_delivery (ext : list Call) (c : Call) :
  Forall quiet ext → c ∈ ext → Main.is_delivery c = false.
Proof. intros H Hc. rewrite Forall_forall in H. by destruct (H c Hc) as (_ & ? & _). Qed.

Lemma chat_part_delivery (w : World) (input : TInput)
    (rc : Result MessageContent) (c : Call) :
  c ∈ chat_part w input rc → Main.is_delivery c = true →
  ∃ content,
    rc = Ok content
    ∧ c = web_chat_postMessage (botToken input) (chat_args input content).
Proof.
  intros Hc Hd. destruct rc as [content|e]; cbn [chat_part] in Hc.
  2:{ apply list_elem_of_singleton in Hc as ->. discriminate. }
  exists content. split; [done|].
  apply elem_of_cons in Hc as [->|Hc]; [done|]. exfalso.
  destruct (chat_postMessage w _ _) as [resp|e].
  2:{ apply list_elem_of_singleton in Hc as ->. discriminate. }
  apply elem_of_cons in Hc as [->|Hc]; [discriminate|].
  destruct (reaction_part_cases w input resp)
    as [(ts & tail & _ & Hr & Htail)|(_ & Hr)]; rewrite Hr in Hc.
  - apply elem_of_cons in Hc as [->|Hc]; [discriminate|].
    apply elem_of_cons in Hc as [->|Hc]; [discriminate|].
    rewrite Forall_forall in Htail. destruct (Htail c Hc). congruence.
  - by apply elem_of_nil in Hc.
Qed.

Lemma chat_part_reaction (w : World) (input : TInput)
    (rc : Result MessageContent) (c : Call) :
  c ∈ chat_part w input rc → Main.is_reaction c = true →
  ∃ content resp ts,
    rc = Ok content
    ∧ chat_postMessage w (botToken input) (chat_args input content) = Ok resp
    ∧ Spec.grants_reaction resp ts
    ∧ c = web_reactions_add (botToken input) (channelId input)
            (Slack.icons !!! Math_random_5 w) ts.
Proof.
  intros Hc Hd. destruct rc as [content|e]; cbn [chat_part] in Hc.
  2:{ apply list_elem_of_singleton in Hc as ->. discriminate. }
  apply elem_of_cons in Hc as [->|Hc]; [discriminate|].
  destruct (chat_postMessage w _ _) as [resp|e] eqn:Hresp.
  2:{ apply list_elem_of_singleton in Hc as ->. discriminate. }
  apply elem_of_cons in Hc as [->|Hc]; [discriminate|].
  destruct (reaction_part_cases w input resp)
    as [(ts & tail & Hg & Hr & Htail)|(_ & Hr)]; rewrite Hr in Hc.
  - apply elem_of_cons in Hc as [->|Hc]; [discriminate|].
    apply elem_of_cons in Hc as [->|Hc]; [by exists content, resp, ts|].
    rewrite Forall_forall in Htail. destruct (Htail c Hc). congruence.
  - by apply elem_of_nil in Hc.
Qed.

Lemma webhook_part_no_reaction (w : World) (input : TInput)
    (rc : Result MessageContent) (c : Call) :
  c ∈ webhook_part w input rc → Main.is_reaction c = false.
Proof.
  intros Hc. destruct rc as [content|e]; cbn [webhook_part] in Hc.
  2:{ by apply list_elem_of_singleton in Hc as ->. }
  apply elem_of_cons in Hc as [->|Hc]; [done|].
  destruct (send w _ _) as [[]|e]; by apply list_elem_of_singleton in Hc as ->.
Qed.

Lemma webhook_part_delivery (w : World) (input : TInput)
    (rc : Result MessageContent) (c : Call) :
  c ∈ webhook_part w input rc → Main.is_delivery c = true →
  ∃ content,
    rc = Ok content
    ∧ c = webhook_send (webhookUrl input) (webhook_args content).
Proof.
  intros Hc Hd. destruct rc as [content|e]; cbn [webhook_part] in Hc.
  2:{ apply list_elem_of_singleton in Hc as ->. discriminate. }
  exists content. split; [done|].
  apply elem_of_cons in Hc as [->|Hc]; [done|]. exfalso.
  destruct (send w _ _) as [[]|e];
    apply list_elem_of_singleton in Hc as ->; discriminate.
Qed.

(** C8: a reaction call is made only after a [chat.postMessage] whose
    response carries a message timestamp and metadata scopes that include
    "reactions:write"; when the response lacks either, and on the webhook
    path, the trace holds no reaction call; when the response has both, the
    reaction call is made with that timestamp. *)
Theorem reaction_requires_timestamp_and_scope (w : World) :
  (∀ token channel name ts,
     web_reactions_add token channel name ts ∈ Main.trace w →
     ∃ args resp,
       web_chat_postMessage token args ∈ Main.trace w
       ∧ chat_postMessage w token args = Ok resp
       ∧ Spec.grants_reaction resp ts)
  ∧ (∀ token args resp,
       web_chat_postMessage token args ∈ Main.trace w →
       chat_postMessage w token args = Ok resp →
       (∀ ts, ¬ Spec.grants_reaction resp ts) →
       ∀ c, c ∈ Main.trace w → Main.is_reaction c = false)
  ∧ (∀ url args,
       webhook_send url args ∈ Main.trace w →
       ∀ c, c ∈ Main.trace w → Main.is_reaction c = false)
  ∧ (∀ token args resp ts,
       web_chat_postMessage token args ∈ Main.trace w →
       chat_postMessage w token args = Ok resp →
       Spec.grants_reaction resp ts →
       ∃ channel name, web_reactions_add token channel name ts ∈ Main.trace w).
Proof.
  destruct (run_outcome w)
    as [Hv Ht|e Hv Hp Ht|input Hv Hp Hb Hu Ht|input Hv Hp Hb Hch Ht
        |input rc ext Hv Hp Hb Hch [Hq Hx] Ht|input rc ext Hv Hp Hb Hu [Hq Hx] Ht];
    rewrite Ht.
  1-4: repeat split; intros;
    repeat match goal with
           | H : _ ∈ [_] |- _ => apply list_elem_of_singleton in H
           end; subst; try discriminate; done.
  - (* chat-app path *)
    assert (Hpost : ∀ token args,
              web_chat_postMessage token args
                ∈ core_info "Action: slack.postMessage: sending a message."
                  :: ext ++ chat_part w input rc →
              ∃ content, rc = Ok content ∧ token = botToken input
                         ∧ args = chat_args input content).
    { intros token args Hc.
      apply elem_of_cons in Hc as [[=]|Hc].
      apply elem_of_app in Hc as [Hc|Hc].
      { by pose proof (quiet_not_delivery _ _ Hx Hc). }
      apply chat_part_delivery in Hc as (content & -> & [= -> ->]); [|done].
      by exists content. }
    repeat split.
    + intros token channel name ts Hc.
      apply elem_of_cons in Hc as [[=]|Hc].
      apply elem_of_app in Hc as [Hc|Hc].
      { by pose proof (quiet_not_reaction _ _ Hx Hc). }
      apply chat_part_reaction in Hc
        as (content & resp & ts' & -> & Hresp & Hg & [= -> -> -> ->]); [|done].
      exists (chat_args input content), resp. split; [|done].
      apply list_elem_of_further, elem_of_app. right. apply list_elem_of_here.
    + intros token args resp Hc Hresp Hng c Hin.
      destruct (Hpost _ _ Hc) as (content & -> & -> & ->).
      apply elem_of_cons in Hin as [->|Hin]; [done|].
      apply elem_of_app in Hin as [Hin|Hin].
      { by apply (quiet_not_reaction _ _ Hx). }
      destruct (Main.is_reaction c) eqn:Hr; [|done].
      apply chat_part_reaction in Hin
        as (content' & resp' & ts & [= <-] & Hresp' & Hg & _); [|done].
      rewrite Hresp in Hresp'. injection Hresp' as <-. by destruct (Hng ts).
    + intros url args Hc. exfalso.
      apply elem_of_cons in Hc as [[=]|Hc].
      apply elem_of_app in Hc as [Hc|Hc].
      { by pose proof (quiet_not_delivery _ _ Hx Hc). }
      by apply chat_part_delivery in Hc as (content & _ & [=]).
    + intros token args resp ts Hc Hresp Hg.
      destruct (Hpost _ _ Hc) as (content & -> & -> & ->).
      exists (channelId input), (Slack.icons !!! Math_random_5 w).
      apply list_elem_of_further, elem_of_app. right.
      cbn [chat_part]. rewrite Hresp. do 2 apply list_elem_of_further.
      destruct (reaction_part_cases w input resp)
        as [(ts' & tail & Hg' & Hr & _)|(Hng & _)]; [|by destruct (Hng ts)].
      rewrite Hr. destruct Hg as (Hts & _), Hg' as (Hts' & _).
      rewrite Hts in Hts'. injection Hts' as <-.
      apply list_elem_of_further, list_elem_of_here.
  - (* webhook path *)
    assert (Hnone : ∀ c,
              c ∈ core_info
                    "Action: slack.postMessageWithWebhook: sending a message."
                  :: ext ++ webhook_part w input rc →
              Main.is_reaction c = false).
    { intros c Hc. apply elem_of_cons in Hc as [->|Hc]; [done|].
      apply elem_of_app in Hc as [Hc|Hc].
      - by apply (quiet_not_reaction _ _ Hx).
      - by apply webhook_part_no_reaction in Hc. }
    assert (Hnopost : ∀ token args,
              web_chat_postMessage token args
                ∉ core_info
                    "Action: slack.postMessageWithWebhook: sending a message."
                  :: ext ++ webhook_part w input rc).
    { intros token args Hc. apply elem_of_cons in Hc as [[=]|Hc].
      apply elem_of_app in Hc as [Hc|Hc].
      - by pose proof (quiet_not_delivery _ _ Hx Hc).
      - by apply webhook_part_delivery in Hc as (content & _ & [=]). }
    repeat split.
    + intros token channel name ts Hc. by pose proof (Hnone _ Hc).
    + intros token args resp Hc. by destruct (Hnopost _ _ Hc).
    + intros url args _. exact Hnone.
    + intros token args resp ts Hc. by destruct (Hnopost _ _ Hc).
Qed.

Lemma reaction_requires_timestamp_and_scope_witness :
  ∃ args resp,
    web_chat_postMessage "xoxb-1" args
      ∈ Main.trace (Sample.world (Sample.review_event changes_requested)
                                 (Some "submitted") Sample.bot_inputs
                                 Sample.full_response)
    ∧ chat_postMessage (Sample.world (Sample.review_event changes_requested)
                                     (Some "submitted") Sample.bot_inputs
                                     Sample.full_response) "xoxb-1" args
      = Ok resp
    ∧ Spec.grants_reaction resp "1700000000.000100".
Proof.
  apply (proj1 (reaction_requires_timestamp_and_scope
                  (Sample.world (Sample.review_event changes_requested)
                                (Some "submitted") Sample.bot_inputs
                                Sample.full_response))
               "xoxb-1" "C024BE91L" "smiling_face_with_3_hearts"
               "1700000000.000100").
  do 4 apply list_elem_of_further. apply list_elem_of_here.
Defined.

(** *** Configuration errors *)


Lemma parseInput_throw (w : World) (e : JsVal) :
  Main.parseInput w = Throw e → e = Main.user_mapping_error.
Proof.
  unfold Main.parseInput, Main.formatUserMapping.
  destruct (JSON_parse w _) as [data|]; [|congruence].
  destruct (Main.Object_keys data); [discriminate | congruence].
Qed.








(** *** Sample invocations *)

Lemma formatUserMapping_truthy_entries_witness :
  let w := Sample.world Sample.push_event None Sample.no_inputs
                        Sample.full_response in
  Main.formatUserMapping w Sample.example_text = Ok {[ "a" := JStr "X" ]}
  ∧ Main.formatUserMapping w "not json" = Throw Main.user_mapping_error.
Proof.
  cbv zeta. split.
  - apply (proj1 (proj2 (formatUserMapping_truthy_entries
                           (Sample.world Sample.push_event None
                                         Sample.no_inputs Sample.full_response)
                           Sample.example_text))).
    reflexivity.
  - eapply (proj2 (proj2 (formatUserMapping_truthy_entries
                            (Sample.world Sample.push_event None
                                          Sample.no_inputs Sample.full_response)
                            "not json"))).
    reflexivity.
Defined.

Lemma isValidEvent_accepts_exactly_witness :
  Spec.accepted
    (context (Sample.world Sample.comment_event (Some "created")
                           Sample.webhook_inputs Sample.full_response)).
Proof.
  apply (proj1 (proj1 (isValidEvent_accepts_exactly _))). reflexivity.
Defined.

(** The first end-to-end scenario of the specification: an opened pull
    request delivered through the webhook. *)
Example webhook_opened_scenario :
  ∃ args,
    Main.trace (Sample.world (Sample.pull_request_event false) (Some "opened")
                             Sample.webhook_inputs Sample.full_response)
    = [core_info "Action: slack.postMessageWithWebhook: sending a message.";
       webhook_send "https://hooks.slack.example/services/T0/B0/x" args;
       core_info "Action: slack.postMessageWithWebhook: sent to Slack."]
    ∧ Spec.status_line (post_content args) = Some "PULL REQUEST #7 - OPENED"
    ∧ Spec.accent (post_content args) = [Some "#2DA44E"]
    ∧ Spec.actor_line (post_content args) = Some "bob opened this pull request.".
Proof. eexists. repeat split. Qed.

(** *** Requested reviewers *)

Lemma generateUser_nonempty (githubUser : string) (mapping : gmap string JsVal) :
  githubUser ≠ "" → Slack.generateUser githubUser mapping ≠ "".
Proof.
  intros Hne. unfold Slack.generateUser.
  by destruct (truthy (property mapping githubUser)).
Qed.

(** X1: The requested reviewers shown are exactly the non-empty displays of
    the individual users of the list: a team never appears, and neither
    does a user whose display is the empty string. *)
Theorem getRequestedReviewers_members (rs : TRequestedReviewers)
    (mapping : gmap string JsVal) (s : string) :
  s ∈ Slack.getRequestedReviewers rs mapping
  ↔ s ≠ "" ∧ ∃ u, ReviewerUser u ∈ rs
                  ∧ s = Slack.generateUser (login u) mapping.
Proof.
  unfold Slack.getRequestedReviewers. rewrite list_elem_of_omap. split.
  - intros (o & Ho & Hs). apply (list_elem_of_fmap _ rs) in Ho as (r & -> & Hr).
    destruct r as [u|team]; [|discriminate].
    destruct (Js.truthy_string _) eqn:Ht; [|discriminate].
    injection Hs as <-. split; [by apply truthy_string_nonempty | eauto].
  - intros (Hne & u & Hu & ->).
    exists (Some (Slack.generateUser (login u) mapping)). split.
    + apply (list_elem_of_fmap _ rs). by exists (ReviewerUser u).
    + by apply truthy_string_nonempty in Hne as ->.
Qed.

(** X2: When no user has an empty login, every individual user is shown, in
    the order of the list, and teams are left out. *)
Theorem getRequestedReviewers_users (rs : TRequestedReviewers)
    (mapping : gmap string JsVal) :
  (∀ u, ReviewerUser u ∈ rs → login u ≠ "") →
  Slack.getRequestedReviewers rs mapping
  = (λ u, Slack.generateUser (login u) mapping) <$> Shape.users_of rs
  ∧ (length (Slack.getRequestedReviewers rs mapping) ≤ length rs)%nat.
Proof.
  unfold Slack.getRequestedReviewers, Shape.users_of.
  induction rs as [|r rs IH]; intros Hne; [done|].
  destruct IH as [IH Hlen].
  { intros u Hu. apply Hne. by apply list_elem_of_further. }
  cbn [map omap list_omap]. destruct r as [u|team].
  - assert (Ht : Js.truthy_string (Slack.generateUser (login u) mapping) = true).
    { apply truthy_string_nonempty, generateUser_nonempty, Hne.
      apply list_elem_of_here. }
    rewrite Ht. cbn. split; [by f_equal | lia].
  - cbn. split; [done | lia].
Qed.

Lemma getRequestedReviewers_users_witness :
  Slack.getRequestedReviewers [ReviewerUser Sample.bob; ReviewerTeam "core";
                               ReviewerUser Sample.alice]
                              {[ "alice" := JStr "U123" ]}
  = ["bob"; "<@U123> (alice)"].
Proof.
  destruct (getRequestedReviewers_users
              [ReviewerUser Sample.bob; ReviewerTeam "core";
               ReviewerUser Sample.alice]
              {[ "alice" := JStr "U123" ]}) as [H _].
  - intros u Hu. rewrite !elem_of_cons, elem_of_nil in Hu.
    destruct Hu as [[= ->]|[[=]|[[= ->]|[]]]]; discriminate.
  - rewrite H. reflexivity.
Defined.

(** *** The user mapping, further *)




(** X4: For a username that is not the name of a property inherited
    from [Object.prototype], dropping the falsy entries changes no display:
    the user is shown from the parsed mapping as from the entries of the
    JSON object itself. *)
Theorem generateUser_after_formatUserMapping (w : World) (mapping : string)
    (props : list (string * JsVal)) (m : gmap string JsVal)
    (githubUser : string) :
  JSON_parse w mapping = Ok (JObj props) →
  Main.formatUserMapping w mapping = Ok m →
  inherited githubUser = None →
  Slack.generateUser githubUser m
  = Slack.generateUser githubUser (list_to_map props).
Proof.
  intros Hp Hm Hi. rewrite (formatUserMapping_object _ _ _ Hp) in Hm.
  injection Hm as <-. unfold Slack.generateUser, property.
  rewrite map_lookup_filter, Hi.
  destruct (list_to_map props !! githubUser) as [v|]; simpl; [|done].
  destruct (truthy v) eqn:Ht.
  - rewrite option_guard_True by done. simpl. by rewrite Ht.
  - rewrite option_guard_False by congruence. done.
Qed.

Lemma generateUser_after_formatUserMapping_witness :
  Slack.generateUser "b" {[ "a" := JStr "X" ]}
  = Slack.generateUser "b" (list_to_map [("a", JStr "X"); ("b", JStr "")]).
Proof.
  apply (generateUser_after_formatUserMapping
           (Sample.world Sample.push_event None Sample.no_inputs
                         Sample.full_response)
           Sample.example_text); reflexivity.
Defined.

(** For an inherited name the two differ: an own empty entry for
    "constructor" shows the plain username, and once it is dropped the
    inherited function is shown as a mention. *)
Example generateUser_dropped_constructor :
  Slack.generateUser "constructor" (list_to_map [("constructor", JStr "")])
  = "constructor"
  ∧ Slack.generateUser "constructor"
      (filter (λ kv, truthy kv.2 = true)
              (list_to_map [("constructor", JStr "")]))
    = "<@function Object() { [native code] }> (constructor)".
Proof. split; reflexivity. Qed.

Lemma assoc_Some_NoDup (props : list (string * JsVal)) (k : string) (v : JsVal) :
  NoDup props.*1 → Main.assoc k props = Some v ↔ (k, v) ∈ props.
Proof.
  intros Hnd. rewrite <- list_to_map_assoc. symmetry.
  by apply elem_of_list_to_map.
Qed.

Lemma indexed_keys (items : list JsVal) :
  (Main.indexed items).*1 = pretty <$> seq 0 (length items).
Proof.
  unfold Main.indexed. rewrite fmap_imap.
  rewrite <- (imap_seq_0 items pretty). by apply imap_ext.
Qed.

Lemma assoc_indexed (items : list JsVal) (k : string) (v : JsVal) :
  Main.assoc k (Main.indexed items) = Some v
  ↔ ∃ i : nat, k = pretty i ∧ items !! i = Some v.
Proof.
  rewrite assoc_Some_NoDup.
  - unfold Main.indexed. rewrite list_elem_of_lookup. split.
    + intros (i & Hi). apply list_lookup_imap_Some in Hi as (y & Hy & [= -> ->]).
      eauto.
    + intros (i & -> & Hi). exists i. apply list_lookup_imap_Some. eauto.
  - rewrite indexed_keys. apply NoDup_fmap_2; [apply _ | apply NoDup_seq].
Qed.

(** The [reduce] over a value whose own properties are the elements of a
    list under their indices keeps the truthy elements. *)
Lemma foldl_reducer_indexed (data : JsVal) (items : list JsVal) (k : string)
    (v : JsVal) :
  Main.own_properties data = Main.indexed items →
  foldl (Main.reducer data) ∅ (Main.own_properties data).*1 !! k = Some v
  ↔ ∃ i : nat, k = pretty i ∧ items !! i = Some v ∧ truthy v = true.
Proof.
  intros Hown.
  rewrite foldl_reducer_lookup, lookup_empty. unfold Main.get.
  rewrite Hown.
  destruct (Main.assoc k (Main.indexed items)) as [x|] eqn:Ha; simpl.
  - rewrite bool_decide_eq_true_2.
    2:{ destruct (decide (k ∈ (Main.indexed items).*1)) as [|Hn]; [done|].
        apply assoc_None_keys in Hn. congruence. }
    apply assoc_indexed in Ha as (i & -> & Hi). simpl.
    destruct (truthy x) eqn:Ht; split.
    + intros [= <-]. eauto.
    + intros (j & Hj & Hv & _). apply (inj pretty) in Hj as <-. congruence.
    + discriminate.
    + intros (j & Hj & Hv & Hvt). apply (inj pretty) in Hj as <-. congruence.
  - rewrite andb_false_r. split; [discriminate|].
    intros (i & -> & Hi & _).
    assert (Main.assoc (pretty i) (Main.indexed items) = Some v)
      by (apply assoc_indexed; eauto).
    congruence.
Qed.

(** No code unit of a string is the empty string. *)
Lemma code_units_nonempty (s : string) :
  Forall (λ c, c ≠ EmptyString) (Js.code_units s).
Proof.
  assert (H : ∀ (n : nat) s, (String.length s ≤ n)%nat →
                     Forall (λ c, c ≠ EmptyString) (Js.code_units s)).
  { clear s. induction n as [|n IH]; intros s Hn.
    - destruct s; [constructor | simpl in Hn; lia].
    - destruct s as [|b0 rest]; [constructor|]. simpl in Hn.
      cbn [Js.code_units]. cbv zeta.
      repeat match goal with
             | |- context [if ?c then _ else _] => destruct c
             | |- Forall _ (match ?r with EmptyString => _ | String _ _ => _ end) =>
                 destruct r; simpl in Hn
             | |- Forall _ (_ :: _) => constructor; [discriminate|]
             | |- Forall _ (Js.code_units _) => apply IH; simpl; lia
             end. }
  by apply (H (String.length s)).
Qed.

(** X5: A text that parses to something other than an object is refused
    only when it parses to [null] (or to [undefined], which [JSON.parse]
    never gives): [null] raises the configuration error, a number or a
    boolean gives the empty mapping, an array gives its truthy elements
    under their indices, and a string gives each of its UTF-16 code units
    under its index. *)
Theorem formatUserMapping_non_objects (w : World) (mapping : string) :
  (JSON_parse w mapping = Ok JNull →
     Main.formatUserMapping w mapping = Throw Main.user_mapping_error)
  ∧ (∀ z, JSON_parse w mapping = Ok (JNum z) →
       Main.formatUserMapping w mapping = Ok ∅)
  ∧ (∀ b, JSON_parse w mapping = Ok (JBool b) →
       Main.formatUserMapping w mapping = Ok ∅)
  ∧ (∀ items, JSON_parse w mapping = Ok (JArr items) →
       ∃ m, Main.formatUserMapping w mapping = Ok m
            ∧ ∀ k v, m !! k = Some v
                     ↔ ∃ i : nat, k = pretty i ∧ items !! i = Some v
                                  ∧ truthy v = true)
  ∧ (∀ s, JSON_parse w mapping = Ok (JStr s) →
       ∃ m, Main.formatUserMapping w mapping = Ok m
            ∧ ∀ k v, m !! k = Some v
                     ↔ ∃ (i : nat) (c : string),
                         k = pretty i ∧ Js.code_units s !! i = Some c
                         ∧ v = JStr c)
  ∧ (∀ data, JSON_parse w mapping = Ok data →
       (Main.formatUserMapping w mapping = Throw Main.user_mapping_error
        ↔ data = JNull ∨ data = JUndefined)
       ∧ (data ≠ JNull → data ≠ JUndefined →
          ∃ m, Main.formatUserMapping w mapping = Ok m)).
Proof.
  unfold Main.formatUserMapping. repeat apply conj.
  - by intros ->.
  - by intros z ->.
  - by intros b ->.
  - intros items ->. eexists. split; [reflexivity|]. intros k v.
    by apply foldl_reducer_indexed.
  - intros s ->. eexists. split; [reflexivity|]. intros k v.
    cbn [Main.Object_keys].
    rewrite (foldl_reducer_indexed _ (JStr <$> Js.code_units s)) by done.
    split.
    + intros (i & -> & Hi & _). apply list_lookup_fmap_Some in Hi as (c & -> & Hc).
      eauto.
    + intros (i & c & -> & Hc & ->). exists i. split; [done|]. split.
      * by rewrite list_lookup_fmap, Hc.
      * pose proof (code_units_nonempty s) as Hne.
        rewrite Forall_lookup in Hne. specialize (Hne _ _ Hc).
        simpl. by destruct c.
  - intros data ->. split.
    + destruct data; simpl; split; try discriminate; try tauto;
        intros [?|?]; discriminate.
    + intros Hn Hu. destruct data; simpl; try done; eauto.
Qed.

Lemma formatUserMapping_non_objects_witness :
  Main.formatUserMapping Sample.mapping_world "null"
  = Throw Main.user_mapping_error
  ∧ Js.code_units "é" = ["é"]
  ∧ ∃ m, Main.formatUserMapping Sample.mapping_world "text" = Ok m
         ∧ (m !! "0" = Some (JStr "é")
            ↔ ∃ (i : nat) (c : string),
                "0" = pretty i ∧ Js.code_units "é" !! i = Some c
                ∧ JStr "é" = JStr c).
Proof.
  split; [|split; [reflexivity|]].
  - apply (proj1 (formatUserMapping_non_objects Sample.mapping_world "null")).
    reflexivity.
  - destruct (proj1 (proj2 (proj2 (proj2 (proj2
               (formatUserMapping_non_objects Sample.mapping_world "text")))))
               "é" eq_refl) as (m & Hm & Hk).
    exists m. split; [exact Hm | exact (Hk "0" (JStr "é"))].
Defined.

(** *** The message builder, further *)

(** The builder's calls and whether it throws depend only on the fetch of
    the pull request detail. *)
Lemma buildMessageContent_run (w : World) (input : TInput) :
  ∃ rc,
    (∀ tr, Slack.buildMessageContent w input tr
           = (rc, tr ++ Shape.builder_calls w input))
    ∧ (∀ e, rc = Throw e ↔ Shape.fetch_answer w input = Some (Throw e)).
Proof.
  unfold Slack.buildMessageContent, Slack.collect, Shape.builder_calls,
    Shape.fetch_answer, Slack.getPullRequestDetail, bind, ret, call.
  destruct (event (context w)) as [p|p|p|name Hname]; cbn [Shape.fetch_number].
  - destruct (Slack.pull_request_outcome _ _) as [[? ?] ?].
    eexists. split; [intros tr; by rewrite app_nil_r|].
    intros e. split; discriminate.
  - destruct (Js.truthy_string (githubToken input)); cbn [negb].
    + destruct (pulls_get w _ _ _ _) as [d|e0].
      * destruct (Slack.review_outcome _ _) as [[? ?] ?].
        eexists. split; [done|]. intros e. split; discriminate.
      * eexists. split; [done|]. intros e. split; congruence.
    + destruct (Slack.review_outcome _ _) as [[? ?] ?].
      eexists. split; [intros tr; by rewrite app_nil_r|].
      intros e. split; discriminate.
  - destruct (Js.truthy_string (githubToken input)); cbn [negb].
    + destruct (pulls_get w _ _ _ _) as [d|e0].
      * destruct (Slack.comment_outcome _) as [[? ?] ?].
        eexists. split; [done|]. intros e. split; discriminate.
      * eexists. split; [done|]. intros e. split; congruence.
    + destruct (Slack.comment_outcome _) as [[? ?] ?].
      eexists. split; [intros tr; by rewrite app_nil_r|].
      intros e. split; discriminate.
  - eexists. split; [done|]. intros e. split; discriminate.
Qed.

(** X6: An edited review is announced as "review: updated a comment" in
    light blue, a dismissed one as "review: dismissed" in red, each with
    its own verb phrase, whenever the fetch of the detail does not throw. *)
Theorem review_action_outcome (w : World) (input : TInput) (tr : list Call)
    (p : TPullRequestReviewWebhookEventPayload) (a : string) :
  event (context w) = PullRequestReviewEvent p →
  action (context w) = Some a →
  a ∈ ["edited"; "dismissed"] →
  let n := pr_number (review_pull_request p) in
  ∀ d tr',
    Slack.getPullRequestDetail w (githubToken input) (repo_owner (context w))
                               (repo_repo (context w)) n tr = (Ok d, tr') →
    ∃ l c row,
      Slack.collect w input tr = (Ok l, tr')
      ∧ Slack.buildMessageContent w input tr = (Ok c, tr')
      ∧ Shape.review_action_row a = Some row
      ∧ Spec.settled l row
      ∧ Spec.renders c n (Spec.actor w input) row.
Proof.
  intros Hev Ha Hin n d tr' Hf.
  unfold Slack.buildMessageContent, Slack.collect, bind, ret.
  rewrite Hev. fold n. rewrite Hf, Ha.
  rewrite !elem_of_cons, elem_of_nil in Hin.
  destruct Hin as [->|[->|[]]].
  - eexists _, _, _. do 3 (split; [reflexivity|]).
    split; [done | by apply rendered].
  - eexists _, _, _. do 3 (split; [reflexivity|]).
    split; [done | by apply rendered].
Qed.

Lemma review_action_outcome_witness :
  ∃ l c,
    Slack.collect (Sample.world (Sample.review_event commented)
                                 (Some "dismissed") Sample.bot_inputs
                                 Sample.full_response) Sample.input []
    = (Ok l, [])
    ∧ Spec.renders c 7 "bob"
        ("review: dismissed", "#CF222E",
         "dismissed the review changes on this pull request.").
Proof.
  assert (Hin : "dismissed" ∈ ["edited"; "dismissed"])
    by apply list_elem_of_further, list_elem_of_here.
  destruct (review_action_outcome
              (Sample.world (Sample.review_event commented) (Some "dismissed")
                            Sample.bot_inputs Sample.full_response)
              Sample.input []
              {| review_pull_request := Sample.pr false;
                 review :=
                   {| review_html_url :=
                        "https://github.com/acme/app/pull/7#pullrequestreview-1";
                      review_state := commented |};
                 changes := None |}
              "dismissed" eq_refl eq_refl Hin None [] eq_refl)
    as (l & c & row & Hl & _ & Hr & _ & Hc).
  injection Hr as <-. exists l, c. split; [exact Hl | exact Hc].
Defined.

(** X7: A created comment is announced as "commented", an edited one as
    "updated a comment", both in light blue, under the number of the issue,
    whenever the fetch of the detail does not throw. *)
Theorem comment_outcome_table (w : World) (input : TInput) (tr : list Call)
    (p : TIssueCommentWebhookEventPayload) (a : string) :
  event (context w) = IssueCommentEvent p →
  action (context w) = Some a →
  a ∈ ["created"; "edited"] →
  let n := issue_number (issue p) in
  ∀ d tr',
    Slack.getPullRequestDetail w (githubToken input) (repo_owner (context w))
                               (repo_repo (context w)) n tr = (Ok d, tr') →
    ∃ l c row,
      Slack.collect w input tr = (Ok l, tr')
      ∧ Slack.buildMessageContent w input tr = (Ok c, tr')
      ∧ Shape.comment_row a = Some row
      ∧ Spec.settled l row
      ∧ Spec.renders c n (Spec.actor w input) row.
Proof.
  intros Hev Ha Hin n d tr' Hf.
  unfold Slack.buildMessageContent, Slack.collect, bind, ret.
  rewrite Hev. fold n. rewrite Hf, Ha.
  rewrite !elem_of_cons, elem_of_nil in Hin.
  destruct Hin as [->|[->|[]]].
  - eexists _, _, _. do 3 (split; [reflexivity|]).
    split; [done | by apply rendered].
  - eexists _, _, _. do 3 (split; [reflexivity|]).
    split; [done | by apply rendered].
Qed.

Lemma comment_outcome_table_witness :
  ∃ l c,
    Slack.collect (Sample.world Sample.comment_event (Some "created")
                                 Sample.webhook_inputs Sample.full_response)
                  Sample.input []
    = (Ok l, [])
    ∧ Spec.renders c 7 "bob"
        ("commented", "#BBDFFF", "commented on this pull request.").
Proof.
  assert (Hin : "created" ∈ ["created"; "edited"]) by apply list_elem_of_here.
  destruct (comment_outcome_table
              (Sample.world Sample.comment_event (Some "created")
                            Sample.webhook_inputs Sample.full_response)
              Sample.input []
              {| issue :=
                   {| issue_number := 7; issue_title := "Add feature X";
                      issue_labels := [];
                      issue_pull_request :=
                        Some {| issue_pr_url :=
                                  "https://api.github.com/repos/acme/app/pulls/7" |} |};
                 comment :=
                   {| comment_html_url :=
                        "https://github.com/acme/app/pull/7#issuecomment-1" |} |}
              "created" eq_refl eq_refl Hin None [] eq_refl)
    as (l & c & row & Hl & _ & Hr & _ & Hc).
  injection Hr as <-. exists l, c. split; [exact Hl | exact Hc].
Defined.

(** X8: For a 'pull_request' event, whatever its action, the builder makes
    no call and does not throw; the head branch, base branch and changed
    files sections are always there, a branch whose repository is null
    being linked under "undefined". *)
Theorem pull_request_sections (w : World) (input : TInput) (tr : list Call)
    (p : TPullRequestWebhookEventPayload) :
  event (context w) = PullRequestEvent p →
  let pr := pull_request p in
  ∃ c,
    Slack.buildMessageContent w input tr = (Ok c, tr)
    ∧ blocks c !! 2%nat
      = Some (section (mrkdwn (":small_blue_diamond: *Head branch:*  "
                               +:+ Shape.branch_link (pr_head pr))))
    ∧ blocks c !! 3%nat
      = Some (section (mrkdwn (":small_blue_diamond: *Base branch:*  "
                               +:+ Shape.branch_link (pr_base pr))))
    ∧ blocks c !! 4%nat
      = Some (section (mrkdwn (":small_blue_diamond: *Files changed:*  <"
                               +:+ Js.join "|"
                                     [pr_html_url pr +:+ "/files";
                                      Js.number_toString (pr_changed_files pr)]
                               +:+ ">")))
    ∧ (6 ≤ length (blocks c) ≤ 9)%nat.
Proof.
  intros Hev pr. subst pr.
  unfold Slack.buildMessageContent, Slack.collect, bind, ret. rewrite Hev.
  destruct (Slack.pull_request_outcome _ _) as [[st co] me].
  eexists. split; [reflexivity|]. cbn [blocks].
  rewrite build_blocks_fixed_order. unfold Spec.fixed_order.
  cbn [Slack.head Slack.base Slack.changedFiles Slack.labels
       Slack.requestedReviewers Slack.createdBy Spec.optional].
  split; [|split; [|split]].
  - unfold Shape.branch_link, Slack.head_block, Slack.branch,
      Slack.generateBranchURL. simpl.
    by destruct (branch_repo (pr_head (pull_request p))).
  - unfold Shape.branch_link, Slack.base_block, Slack.branch,
      Slack.generateBranchURL. simpl.
    by destruct (branch_repo (pr_base (pull_request p))).
  - done.
  - destruct (Spec.nonempty (map label_name _)),
      (Spec.nonempty (Slack.getRequestedReviewers _ _)),
      (Spec.known_author _); simpl; lia.
Qed.

Lemma pull_request_sections_witness :
  ∃ c,
    Slack.buildMessageContent
      (Sample.world (Sample.pull_request_event false) (Some "labeled")
                    Sample.webhook_inputs Sample.full_response)
      Sample.input [] = (Ok c, [])
    ∧ blocks c !! 2%nat
      = Some (section (mrkdwn ":small_blue_diamond: *Head branch:*  <https://github.com/acme/app/tree/feature-x|feature-x>")).
Proof.
  destruct (pull_request_sections
              (Sample.world (Sample.pull_request_event false) (Some "labeled")
                            Sample.webhook_inputs Sample.full_response)
              Sample.input []
              {| number := 7; pull_request := Sample.pr false |} eq_refl)
    as (c & Hc & Hh & _).
  exists c. split; [exact Hc | exact Hh].
Defined.

(** X9: Without a GitHub token the builder fetches nothing and does not
    throw: a review message then has its head and base sections but no
    changed-files section; a comment message has only header, title, labels
    (if any) and divider. *)
Theorem builder_without_token (w : World) (input : TInput) (tr : list Call) :
  githubToken input = "" →
  (∀ p, event (context w) = PullRequestReviewEvent p →
     ∃ l c, Slack.collect w input tr = (Ok l, tr)
            ∧ Slack.buildMessageContent w input tr = (Ok c, tr)
            ∧ blocks c = Spec.fixed_order l (userMapping input)
            ∧ Slack.changedFiles l = None
            ∧ Slack.head l
              = Some (Slack.branch (pr_head (review_pull_request p)))
            ∧ Slack.base l
              = Some (Slack.branch (pr_base (review_pull_request p))))
  ∧ (∀ p, event (context w) = IssueCommentEvent p →
       ∃ l c, Slack.collect w input tr = (Ok l, tr)
              ∧ Slack.buildMessageContent w input tr = (Ok c, tr)
              ∧ Slack.labels l = map label_name (issue_labels (issue p))
              ∧ blocks c
                = [Slack.header_block l; Slack.title_block l]
                  ++ Spec.optional (Spec.nonempty (Slack.labels l))
                                   Slack.labels_block
                  ++ [divider]).
Proof.
  intros Htok.
  unfold Slack.buildMessageContent, Slack.collect, Slack.getPullRequestDetail,
    bind, ret.
  rewrite Htok. cbn [Js.truthy_string negb]. split.
  - intros p ->.
    destruct (Slack.review_outcome _ _) as [[st co] me].
    eexists _, _. do 2 (split; [reflexivity|]). cbn [blocks].
    by rewrite build_blocks_fixed_order.
  - intros p ->.
    destruct (Slack.comment_outcome _) as [[st co] me].
    eexists _, _. do 3 (split; [reflexivity|]). cbn [blocks].
    by rewrite build_blocks_fixed_order.
Qed.

Lemma builder_without_token_witness :
  ∃ l c,
    Slack.buildMessageContent
      (Sample.world Sample.comment_event (Some "created")
                    Sample.webhook_inputs Sample.full_response)
      Sample.input [] = (Ok c, [])
    ∧ blocks c = [Slack.header_block l; Slack.title_block l; divider].
Proof.
  destruct (builder_without_token
              (Sample.world Sample.comment_event (Some "created")
                            Sample.webhook_inputs Sample.full_response)
              Sample.input [] eq_refl) as [_ H].
  destruct (H _ eq_refl) as (l & c & Hl & Hc & _ & Hb).
  exists l, c. split; [exact Hc|].
  rewrite Hb. injection Hl as <-. reflexivity.
Defined.

(** X10: With a token and an answer from [pulls.get], the builder makes that
    one call; a review message takes its changed-files section from the
    answer, and a comment message its head, base and changed-files
    sections, while a null [user] leaves the author section out. *)
Theorem builder_with_detail (w : World) (input : TInput) (tr : list Call)
    (n : Z) (d : TPullRequestDetail) :
  githubToken input ≠ "" →
  Shape.fetch_number (event (context w)) = Some n →
  pulls_get w (githubToken input) (repo_owner (context w))
            (repo_repo (context w)) n = Ok d →
  ∃ l c,
    Slack.collect w input tr
    = (Ok l, tr ++ [octokit_pulls_get (githubToken input)
                      (repo_owner (context w)) (repo_repo (context w)) n])
    ∧ Slack.buildMessageContent w input tr
      = (Ok c, tr ++ [octokit_pulls_get (githubToken input)
                        (repo_owner (context w)) (repo_repo (context w)) n])
    ∧ blocks c = Spec.fixed_order l (userMapping input)
    ∧ Slack.changedFiles l
      = Some (detail_html_url d +:+ "/files", detail_changed_files d)
    ∧ (∀ p, event (context w) = IssueCommentEvent p →
         Slack.head l = Some (Slack.branch (detail_head d))
         ∧ Slack.base l = Some (Slack.branch (detail_base d))
         ∧ Slack.createdBy l = login <$> detail_user d
         ∧ (detail_requested_reviewers d = None →
            Slack.requestedReviewers l = [])).
Proof.
  intros Htok Hn Hd. apply truthy_string_nonempty in Htok.
  unfold Slack.buildMessageContent, Slack.collect, Slack.getPullRequestDetail,
    bind, ret, call.
  destruct (event (context w)) as [p|p|p|name Hname];
    cbn [Shape.fetch_number] in Hn; try discriminate;
    injection Hn as <-; rewrite Htok; cbn [negb]; rewrite Hd.
  - destruct (Slack.review_outcome _ _) as [[st co] me].
    eexists _, _. do 2 (split; [reflexivity|]). cbn [blocks].
    rewrite build_blocks_fixed_order. do 2 (split; [done|]).
    intros p' [=].
  - destruct (Slack.comment_outcome _) as [[st co] me].
    eexists _, _. do 2 (split; [reflexivity|]). cbn [blocks].
    rewrite build_blocks_fixed_order. do 2 (split; [done|]).
    intros p' _. cbn. repeat split. by intros ->.
Qed.

Lemma builder_with_detail_witness :
  ∃ l,
    Slack.collect (Sample.world Sample.comment_event (Some "created")
                                 Sample.webhook_inputs Sample.full_response)
                  {| githubToken := "ghs_1"; botToken := ""; channelId := "";
                     webhookUrl := "https://hooks.slack.example/x";
                     userMapping := ∅ |} []
    = (Ok l, [octokit_pulls_get "ghs_1" "acme" "app" 7])
    ∧ Slack.createdBy l = Some "alice".
Proof.
  destruct (builder_with_detail
              (Sample.world Sample.comment_event (Some "created")
                            Sample.webhook_inputs Sample.full_response)
              {| githubToken := "ghs_1"; botToken := ""; channelId := "";
                 webhookUrl := "https://hooks.slack.example/x";
                 userMapping := ∅ |} [] 7 Sample.detail)
    as (l & c & Hl & _ & _ & _ & Hcomment); [discriminate | reflexivity..|].
  destruct (Hcomment _ eq_refl) as (_ & _ & Hu & _).
  exists l. split; [exact Hl | exact Hu].
Defined.

(** X11: Every content the builder returns has between three and nine blocks,
    the first a header that starts with "PULL REQUEST #" and the last the
    divider, and exactly one attachment made of the actor's context block
    and the fixed footer. *)
Theorem content_shape (w : World) (input : TInput) (tr tr' : list Call)
    (c : MessageContent) :
  Slack.buildMessageContent w input tr = (Ok c, tr') →
  (∃ rest, Spec.status_line c = Some ("PULL REQUEST #" +:+ rest))
  ∧ last (blocks c) = Some divider
  ∧ (3 ≤ length (blocks c) ≤ 9)%nat
  ∧ ∃ a avatar who link,
      attachments c = [a]
      ∧ attachment_blocks a
        = [context_block [image avatar "sender avatar image";
                          mrkdwn_element who;
                          mrkdwn_element ("<" +:+ link +:+ "|View it on GitHub>")];
           Shape.footer].
Proof.
  unfold Slack.buildMessageContent, bind, ret. intros H.
  destruct (Slack.collect w input tr) as [[l|e] tr0]; [|discriminate].
  injection H as <- <-. split; [|split; [|split]].
  - rewrite status_line_built. by eexists.
  - cbn [blocks]. unfold Slack.build_blocks, Slack.push. apply last_snoc.
  - cbn [blocks]. rewrite build_blocks_fixed_order.
    unfold Spec.fixed_order.
    destruct (Slack.head l), (Slack.base l), (Slack.changedFiles l),
      (Spec.nonempty (Slack.labels l)),
      (Spec.nonempty (Slack.requestedReviewers l)),
      (Spec.known_author (Slack.createdBy l)); simpl; lia.
  - by eexists _, _, _, _.
Qed.

Lemma content_shape_witness :
  ∃ c,
    Slack.buildMessageContent
      (Sample.world (Sample.pull_request_event false) (Some "opened")
                    Sample.webhook_inputs Sample.full_response)
      Sample.input [] = (Ok c, [])
    ∧ last (blocks c) = Some divider.
Proof.
  eexists. split; [reflexivity|].
  apply (content_shape
           (Sample.world (Sample.pull_request_event false) (Some "opened")
                         Sample.webhook_inputs Sample.full_response)
           Sample.input [] [] _ eq_refl).
Defined.

(** X12: On an event the builder has no case for, it logs "Unsupported event
    type." and returns the fallback: number, status and title print as
    "undefined", the colour is grey, the actor "do nothing", and only
    header, title and divider are there. *)
Theorem unsupported_event_fallback (w : World) (input : TInput)
    (tr : list Call) (name : string) (H : supported_event name = false) :
  event (context w) = OtherEvent name H →
  ∃ c,
    Slack.buildMessageContent w input tr
    = (Ok c, tr ++ [core_info "Unsupported event type."])
    ∧ Spec.status_line c = Some "PULL REQUEST #undefined - undefined"
    ∧ Shape.section_text <$> blocks c !! 1%nat
      = Some (Some ":small_blue_diamond: *Title:  undefined*")
    ∧ length (blocks c) = 3%nat
    ∧ Spec.accent c = [Some "#DDDDDD"]
    ∧ Spec.actor_line c = Some (Spec.actor w input +:+ " do nothing").
Proof.
  intros Hev.
  unfold Slack.buildMessageContent, Slack.collect, bind, ret, call.
  rewrite Hev. eexists. split; [reflexivity|]. repeat split.
Qed.

Lemma unsupported_event_fallback_witness :
  ∃ c,
    Slack.buildMessageContent
      (Sample.world Sample.push_event None Sample.webhook_inputs
                    Sample.full_response) Sample.input []
    = (Ok c, [core_info "Unsupported event type."])
    ∧ Spec.actor_line c = Some "bob do nothing".
Proof.
  destruct (unsupported_event_fallback
              (Sample.world Sample.push_event None Sample.webhook_inputs
                            Sample.full_response) Sample.input []
              "push" eq_refl eq_refl) as (c & Hc & _ & _ & _ & _ & Ha).
  exists c. split; [exact Hc | exact Ha].
Defined.

(** *** The run, further *)

Lemma parseInput_fields (w : World) (input : TInput) :
  Main.parseInput w = Ok input →
  githubToken input = core_getInput w "github-token"
  ∧ botToken input = core_getInput w "slack-bot-token"
  ∧ channelId input = core_getInput w "slack-channel-id"
  ∧ webhookUrl input = core_getInput w "slack-webhook-url".
Proof.
  unfold Main.parseInput. destruct (Main.formatUserMapping w _); [|discriminate].
  by intros [= <-].
Qed.

(** The calls of the chat-app path after the builder, in full. *)
Lemma chat_part_forms (w : World) (input : TInput) (rc : Result MessageContent) :
  (∃ e, rc = Throw e ∧ chat_part w input rc = [failure e])
  ∨ ∃ content,
      rc = Ok content
      ∧ let post :=
          web_chat_postMessage (botToken input) (chat_args input content) in
        let sent := core_info "Action: slack.postMessage: sent to Slack." in
        (∃ e, chat_postMessage w (botToken input) (chat_args input content)
              = Throw e
              ∧ chat_part w input rc = [post; failure e])
        ∨ ∃ resp,
            chat_postMessage w (botToken input) (chat_args input content)
            = Ok resp
            ∧ (((∀ ts, ¬ Spec.grants_reaction resp ts)
                ∧ chat_part w input rc = [post; sent])
               ∨ ∃ ts,
                   Spec.grants_reaction resp ts
                   ∧ let icon := Slack.icons !!! Math_random_5 w in
                     let react :=
                       web_reactions_add (botToken input) (channelId input)
                                         icon ts in
                     let sending :=
                       core_info "Action: slack.addReaction: sending a message."
                     in
                     (reactions_add w (botToken input) (channelId input) icon ts
                      = Ok ()
                      ∧ chat_part w input rc
                        = [post; sent; sending; react;
                           core_info
                             "Action: slack.addReaction: sent to Slack."])
                     ∨ ∃ e,
                         reactions_add w (botToken input) (channelId input)
                                       icon ts = Throw e
                         ∧ chat_part w input rc
                           = [post; sent; sending; react; failure e]).
Proof.
  destruct rc as [content|e]; [right; exists content; split; [done|]|left; eauto].
  cbv zeta. cbn [chat_part].
  destruct (chat_postMessage w _ _) as [resp|e]; [right; exists resp|left; eauto].
  split; [done|].
  destruct (reaction_part_cases w input resp)
    as [(ts & tail & Hg & Hr & _)|(Hng & Hr)]; [right; exists ts|left; by rewrite Hr].
  split; [done|]. clear Hr. unfold reaction_part.
  destruct Hg as (Hts & Hne & m & sc & Hm & Hsc & Hin).
  rewrite Hts, Hm, Hsc.
  apply truthy_string_nonempty in Hne as ->.
  apply includes_elem_of in Hin as ->. cbn [andb].
  destruct (reactions_add w _ _ _ ts) as [[]|e]; [left|right; exists e]; done.
Qed.

(** The calls of the webhook path after the builder, in full. *)
Lemma webhook_part_forms (w : World) (input : TInput)
    (rc : Result MessageContent) :
  (∃ e, rc = Throw e ∧ webhook_part w input rc = [failure e])
  ∨ ∃ content,
      rc = Ok content
      ∧ let post := webhook_send (webhookUrl input) (webhook_args content) in
        (∃ e, send w (webhookUrl input) (webhook_args content) = Throw e
              ∧ webhook_part w input rc = [post; failure e])
        ∨ (send w (webhookUrl input) (webhook_args content) = Ok ()
           ∧ webhook_part w input rc
             = [post;
                core_info
                  "Action: slack.postMessageWithWebhook: sent to Slack."]).
Proof.
  destruct rc as [content|e]; [right; exists content; split; [done|]|left; eauto].
  cbv zeta. cbn [webhook_part].
  destruct (send w _ _) as [[]|e]; [right|left]; eauto.
Qed.

(** The calls of the builder, in full. *)
Lemma builder_calls_forms (w : World) (input : TInput) :
  (Shape.builder_calls w input = []
   ∧ Shape.fetch_answer w input = None
   ∧ supported_event (eventName (context w)) = true)
  ∨ (∃ n, Shape.fetch_number (event (context w)) = Some n
          ∧ githubToken input ≠ ""
          ∧ Shape.builder_calls w input
            = [octokit_pulls_get (githubToken input) (repo_owner (context w))
                                 (repo_repo (context w)) n]
          ∧ Shape.fetch_answer w input
            = Some (pulls_get w (githubToken input) (repo_owner (context w))
                              (repo_repo (context w)) n))
  ∨ (Shape.builder_calls w input = [core_info "Unsupported event type."]
     ∧ supported_event (eventName (context w)) = false).
Proof.
  unfold Shape.builder_calls, Shape.fetch_answer, eventName.
  destruct (event (context w)) as [p|p|p|name Hname]; cbn [Shape.fetch_number].
  - by left.
  - destruct (Js.truthy_string (githubToken input)) eqn:Ht; [|by left].
    right; left. eexists. apply truthy_string_nonempty in Ht. done.
  - destruct (Js.truthy_string (githubToken input)) eqn:Ht; [|by left].
    right; left. eexists. apply truthy_string_nonempty in Ht. done.
  - by right; right.
Qed.

(** The four paths of an invocation, with every call written out. *)
Lemma run_paths (w : World) :
  (Main.isValidEvent (context w) = false
   ∧ Main.trace w = [core_info "Skipped Action."])
  ∨ (Main.isValidEvent (context w) = true
     ∧ ∃ msg, msg ∈ [Main.user_mapping_message; Main.no_credentials_message;
                     Main.no_channel_message]
              ∧ Main.trace w = [core_setFailed (JStr msg)])
  ∨ (Main.isValidEvent (context w) = true
     ∧ ∃ input rc,
         Main.parseInput w = Ok input
         ∧ botToken input ≠ "" ∧ channelId input ≠ ""
         ∧ Shape.built w input rc
         ∧ Main.trace w
           = core_info "Action: slack.postMessage: sending a message."
             :: Shape.builder_calls w input ++ chat_part w input rc)
  ∨ (Main.isValidEvent (context w) = true
     ∧ ∃ input rc,
         Main.parseInput w = Ok input
         ∧ botToken input = "" ∧ webhookUrl input ≠ ""
         ∧ Shape.built w input rc
         ∧ Main.trace w
           = core_info "Action: slack.postMessageWithWebhook: sending a message."
             :: Shape.builder_calls w input ++ webhook_part w input rc).
Proof.
  destruct (run_outcome w)
    as [Hv Ht|e Hv Hp Ht|input Hv Hp Hb Hu Ht|input Hv Hp Hb Hch Ht
        |input rc ext Hv Hp Hb Hch [Hq _] Ht|input rc ext Hv Hp Hb Hu [Hq _] Ht].
  - by left.
  - right; left. split; [done|]. apply parseInput_throw in Hp as ->.
    exists Main.user_mapping_message. split; [set_solver | done].
  - right; left. split; [done|].
    exists Main.no_credentials_message. split; [set_solver | done].
  - right; left. split; [done|].
    exists Main.no_channel_message. split; [set_solver | done].
  - right; right; left. split; [done|]. exists input, rc.
    destruct (buildMessageContent_run w input) as (rc' & Hrun & Hthrow).
    pose proof (Hq []) as H1. rewrite Hrun in H1. injection H1 as -> <-.
    do 3 (split; [done|]). split; [by split | done].
  - right; right; right. split; [done|]. exists input, rc.
    destruct (buildMessageContent_run w input) as (rc' & Hrun & Hthrow).
    pose proof (Hq []) as H1. rewrite Hrun in H1. injection H1 as -> <-.
    do 3 (split; [done|]). split; [by split | done].
Qed.

Lemma valid_supported (ctx : Context) :
  Main.isValidEvent ctx = true → supported_event (eventName ctx) = true.
Proof.
  intros Hv. apply isValidEvent_sound in Hv as (a & _ & H).
  destruct H as [(-> & _)|[(-> & _)|(-> & _)]]; reflexivity.
Qed.

(** Case analysis of a run down to the list of its calls. *)
Ltac run_forms w :=
  let Hv := fresh "Hv" in
  let Ht := fresh "Ht" in
  let HB := fresh "HB" in
  let HC := fresh "HC" in
  destruct (run_paths w)
    as [[Hv Ht]
       |[[Hv (?msg & ?Hmsg & Ht)]
        |[[Hv (?input & ?rc & ?Hp & ?Hb & ?Hc & [?Hrun ?Hthrow] & Ht)]
         |[Hv (?input & ?rc & ?Hp & ?Hb & ?Hu & [?Hrun ?Hthrow] & Ht)]]]];
  [ | 
  | match type of Ht with
    | _ = _ :: Shape.builder_calls _ ?input ++ chat_part _ _ ?rc =>
        destruct (builder_calls_forms w input)
          as [(HB & ?Hfa & ?Hsup)
             |[(?n & ?Hn & ?Htok & HB & ?Hfa)|(HB & ?Hsup)]];
        [ | | apply valid_supported in Hv; congruence ];
        rewrite HB in Ht;
        pose proof (chat_part_forms w input rc) as HC; cbv zeta in HC;
        destruct HC
          as [(?e & ?Hrc & HC)
             |(?content & ?Hrc &
               [(?e & ?Hpost & HC)
               |(?resp & ?Hpost &
                 [(?Hng & HC)
                 |(?ts & ?Hg & [(?Hreact & HC)|(?e & ?Hreact & HC)])])])];
        rewrite HC in Ht; cbn [app] in Ht
    end
  | match type of Ht with
    | _ = _ :: Shape.builder_calls _ ?input ++ webhook_part _ _ ?rc =>
        destruct (builder_calls_forms w input)
          as [(HB & ?Hfa & ?Hsup)
             |[(?n & ?Hn & ?Htok & HB & ?Hfa)|(HB & ?Hsup)]];
        [ | | apply valid_supported in Hv; congruence ];
        rewrite HB in Ht;
        pose proof (webhook_part_forms w input rc) as HC; cbv zeta in HC;
        destruct HC
          as [(?e & ?Hrc & HC)
             |(?content & ?Hrc & [(?e & ?Hpost & HC)|(?Hpost & HC)])];
        rewrite HC in Ht; cbn [app] in Ht
    end ].

(** X13: An event the classifier rejects ends the run at once: the only call
    is the "Skipped Action." log, no input is validated and nothing is
    reported as failed; and only a rejected event gives that trace. *)
Theorem skipped_exactly_when_rejected (w : World) :
  (Main.isValidEvent (context w) = false
   ↔ Main.trace w = [core_info "Skipped Action."])
  ∧ (Main.isValidEvent (context w) = false → Main.failed w = false).
Proof.
  split.
  - split.
    + intros Hv. unfold Main.trace, Main.run. by rewrite Hv.
    + intros Ht. run_forms w; try done; rewrite Ht in *; discriminate.
  - intros Hv. unfold Main.failed, Main.trace, Main.run. by rewrite Hv.
Qed.

(** X14: In one invocation the detail is fetched at most once, the message is
    delivered at most once, at most one reaction is added and at most one
    failure is reported. *)
Theorem calls_at_most_once (w : World) :
  (length (List.filter Shape.is_fetch (Main.trace w)) ≤ 1)%nat
  ∧ (length (List.filter Main.is_delivery (Main.trace w)) ≤ 1)%nat
  ∧ (length (List.filter Main.is_reaction (Main.trace w)) ≤ 1)%nat
  ∧ (length (List.filter Main.is_setFailed (Main.trace w)) ≤ 1)%nat.
Proof.
  run_forms w; rewrite Ht; cbn; lia.
Qed.

(** X15: A reported failure is the last call of the run. *)
Theorem failure_is_last (w : World) (msg : JsVal) :
  core_setFailed msg ∈ Main.trace w →
  last (Main.trace w) = Some (core_setFailed msg).
Proof.
  run_forms w; rewrite Ht;
    rewrite ?elem_of_cons, ?elem_of_nil; intros H;
    repeat match goal with
           | H : _ ∨ _ |- _ => destruct H as [H|H]
           end; try discriminate; try done;
    injection H as ->; reflexivity.
Qed.

Lemma failure_is_last_witness :
  last (Main.trace (Sample.world (Sample.pull_request_event false)
                                 (Some "opened") Sample.no_inputs
                                 Sample.full_response))
  = Some (core_setFailed (JStr Main.no_credentials_message)).
Proof.
  apply failure_is_last. apply list_elem_of_here.
Defined.

(** X16: On an accepted event the run either reports a failure or has
    delivered the message exactly once. *)
Theorem success_means_delivered (w : World) :
  Main.isValidEvent (context w) = true →
  Main.failed w = false →
  length (List.filter Main.is_delivery (Main.trace w)) = 1%nat.
Proof.
  unfold Main.failed.
  run_forms w; rewrite Ht; cbn; intros; try done; congruence.
Qed.

Lemma success_means_delivered_witness :
  length (List.filter Main.is_delivery
            (Main.trace (Sample.world (Sample.pull_request_event false)
                                      (Some "opened") Sample.webhook_inputs
                                      Sample.full_response)))
  = 1%nat.
Proof. apply success_means_delivered; reflexivity. Defined.

(** Membership in a written-out trace, case by case. *)
Ltac trace_cases Ht :=
  rewrite ?Ht; rewrite ?elem_of_cons, ?elem_of_nil; intros;
  repeat match goal with
         | H : _ ∨ _ |- _ => destruct H as [H|H]
         | H : False |- _ => destruct H
         end;
  try discriminate.

(** X17: The chat-app path has priority: with a bot token no webhook is ever
    called, whatever the webhook URL; without one, nothing is posted
    through the Web API and no reaction is added. *)
Theorem chat_app_priority (w : World) :
  (core_getInput w "slack-bot-token" ≠ "" →
     ∀ url args, webhook_send url args ∉ Main.trace w)
  ∧ (core_getInput w "slack-bot-token" = "" →
       ∀ c, c ∈ Main.trace w →
            Main.is_reaction c = false
            ∧ ∀ token args, c ≠ web_chat_postMessage token args).
Proof.
  split.
  - intros Hbot url args. unfold not.
    run_forms w; try (apply parseInput_fields in Hp as (_ & Hp & _));
      trace_cases Ht; congruence.
  - intros Hbot c.
    run_forms w; try (apply parseInput_fields in Hp as (_ & Hp & _));
      try congruence; trace_cases Ht; subst; done.
Qed.

Lemma chat_app_priority_witness :
  webhook_send "https://hooks.slack.example/x"
               {| post_channel := None; post_text := Slack.DEFAULT_TEXT;
                  post_content := {| blocks := []; attachments := [] |} |}
    ∉ Main.trace (Sample.world (Sample.pull_request_event false)
                               (Some "opened")
                               (Sample.inputs "xoxb-1" "C024BE91L"
                                  "https://hooks.slack.example/x" "")
                               Sample.full_response).
Proof.
  apply (proj1 (chat_app_priority _)). discriminate.
Defined.

(** X18: What is delivered is what the builder returned for the parsed
    input, under the fixed fallback text: through the Web API with the
    configured token and channel, through the webhook with the configured
    URL and no channel. *)
Theorem delivery_arguments (w : World) :
  (∀ token args,
     web_chat_postMessage token args ∈ Main.trace w →
     token = core_getInput w "slack-bot-token"
     ∧ post_channel args = Some (core_getInput w "slack-channel-id")
     ∧ post_text args = "This is a message from a github pull request."
     ∧ ∃ input tr',
         Main.parseInput w = Ok input
         ∧ Slack.buildMessageContent w input [] = (Ok (post_content args), tr'))
  ∧ (∀ url args,
       webhook_send url args ∈ Main.trace w →
       url = core_getInput w "slack-webhook-url"
       ∧ post_channel args = None
       ∧ post_text args = "This is a message from a github pull request."
       ∧ ∃ input tr',
           Main.parseInput w = Ok input
           ∧ Slack.buildMessageContent w input [] = (Ok (post_content args), tr')).
Proof.
  split.
  - intros token args.
    run_forms w; trace_cases Ht;
      match goal with H : web_chat_postMessage _ _ = _ |- _ =>
        injection H as -> -> end;
      destruct (parseInput_fields _ _ Hp) as (_ & <- & <- & _);
      (do 3 (split; [done|])); exists input; eexists; (split; [done|]);
      rewrite Hrun, Hrc; reflexivity.
  - intros url args.
    run_forms w; trace_cases Ht;
      match goal with H : webhook_send _ _ = _ |- _ =>
        injection H as -> -> end;
      destruct (parseInput_fields _ _ Hp) as (_ & _ & _ & <-);
      (do 3 (split; [done|])); exists input; eexists; (split; [done|]);
      rewrite Hrun, Hrc; reflexivity.
Qed.

Lemma delivery_arguments_witness :
  ∃ args,
    webhook_send "https://hooks.slack.example/services/T0/B0/x" args
      ∈ Main.trace (Sample.world (Sample.pull_request_event false)
                                 (Some "opened") Sample.webhook_inputs
                                 Sample.full_response)
    ∧ post_channel args = None.
Proof.
  assert (H : ∃ args,
            webhook_send "https://hooks.slack.example/services/T0/B0/x" args
              ∈ Main.trace (Sample.world (Sample.pull_request_event false)
                                         (Some "opened") Sample.webhook_inputs
                                         Sample.full_response)).
  { eexists. apply list_elem_of_further, list_elem_of_here. }
  destruct H as [args H]. exists args. split; [exact H|].
  exact (proj1 (proj2 (proj2 (delivery_arguments _) _ _ H))).
Defined.

Lemma icon_chosen (w : World) :
  Slack.icons !!! Math_random_5 w ∈ Shape.icon_names.
Proof. unfold Shape.icon_names. apply elem_of_vlookup. eauto. Qed.

(** X19: A reaction is added with one of the five icon names, with the
    configured token, in the configured channel, on a non-empty
    timestamp. *)
Theorem reaction_arguments (w : World) (token channel name ts : string) :
  web_reactions_add token channel name ts ∈ Main.trace w →
  name ∈ ["heart"; "heart_eyes"; "smiling_face_with_3_hearts"; "medal"; "100"]
  ∧ token = core_getInput w "slack-bot-token"
  ∧ channel = core_getInput w "slack-channel-id"
  ∧ ts ≠ "".
Proof.
  run_forms w; trace_cases Ht;
    match goal with H : web_reactions_add _ _ _ _ = _ |- _ =>
      injection H as -> -> -> -> end;
    destruct (parseInput_fields _ _ Hp) as (_ & <- & <- & _);
    destruct Hg as (_ & Hne & _);
    pose proof (icon_chosen w) as Hi; cbn in Hi;
    rewrite ?elem_of_cons, ?elem_of_nil in Hi; done.
Qed.

Lemma reaction_arguments_witness :
  "smiling_face_with_3_hearts"
    ∈ ["heart"; "heart_eyes"; "smiling_face_with_3_hearts"; "medal"; "100"]
  ∧ "1700000000.000100" ≠ "".
Proof.
  destruct (reaction_arguments
              (Sample.world (Sample.review_event changes_requested)
                            (Some "submitted") Sample.bot_inputs
                            Sample.full_response)
              "xoxb-1" "C024BE91L" "smiling_face_with_3_hearts"
              "1700000000.000100") as (Hn & _ & _ & Hts).
  - do 4 apply list_elem_of_further. apply list_elem_of_here.
  - split; [exact Hn | exact Hts].
Defined.

(** X20: When [reactions.add] throws, the run reports that error although
    the message has been posted; when it returns, the run does not fail. *)
Theorem reaction_failure_reported (w : World) (token channel name ts : string) :
  web_reactions_add token channel name ts ∈ Main.trace w →
  (∀ e, reactions_add w token channel name ts = Throw e →
     last (Main.trace w) = Some (core_setFailed (Utils.normalizeError e))
     ∧ ∃ args, web_chat_postMessage token args ∈ Main.trace w)
  ∧ (reactions_add w token channel name ts = Ok () → Main.failed w = false).
Proof.
  unfold Main.failed.
  run_forms w; trace_cases Ht;
    match goal with H : web_reactions_add _ _ _ _ = _ |- _ =>
      injection H as -> -> -> -> end;
    (split; [intros e' He'|intros He']); rewrite ?Ht;
    try congruence; try reflexivity.
  all: rewrite Hreact in He'; injection He' as <-;
    (split; [reflexivity|]); eexists;
    rewrite !elem_of_cons; eauto 6.
Qed.

Lemma reaction_failure_reported_witness :
  Main.failed (Sample.world (Sample.review_event changes_requested)
                            (Some "submitted") Sample.bot_inputs
                            Sample.full_response) = false.
Proof.
  destruct (reaction_failure_reported
              (Sample.world (Sample.review_event changes_requested)
                            (Some "submitted") Sample.bot_inputs
                            Sample.full_response)
              "xoxb-1" "C024BE91L" "smiling_face_with_3_hearts"
              "1700000000.000100") as (_ & H).
  - do 4 apply list_elem_of_further. apply list_elem_of_here.
  - apply H. reflexivity.
Defined.

(** X21: When the delivery call throws, the run reports that error as its
    last call and nothing follows the delivery: no reaction is added. *)
Theorem delivery_failure_reported (w : World) (e : JsVal) :
  (∀ token args,
     web_chat_postMessage token args ∈ Main.trace w →
     chat_postMessage w token args = Throw e →
     last (Main.trace w) = Some (core_setFailed (Utils.normalizeError e))
     ∧ ∀ c, c ∈ Main.trace w → Main.is_reaction c = false)
  ∧ (∀ url args,
       webhook_send url args ∈ Main.trace w →
       send w url args = Throw e →
       last (Main.trace w) = Some (core_setFailed (Utils.normalizeError e))).
Proof.
  split.
  - intros token args.
    run_forms w; trace_cases Ht;
      match goal with H : web_chat_postMessage _ _ = _ |- _ =>
        injection H as -> -> end;
      try congruence;
      match goal with H : chat_postMessage _ _ _ = Throw e |- _ =>
        rewrite Hpost in H; injection H as <- end;
      (split; [done|]); intros c; trace_cases Ht; by subst.
  - intros url args.
    run_forms w; trace_cases Ht;
      match goal with H : webhook_send _ _ = _ |- _ =>
        injection H as -> -> end;
      try congruence;
      match goal with H : send _ _ _ = Throw e |- _ =>
        rewrite Hpost in H; injection H as <- end;
      done.
Qed.

Lemma delivery_failure_reported_witness :
  last (Main.trace
          {| context := context (Sample.world (Sample.pull_request_event false)
                                              (Some "opened")
                                              Sample.webhook_inputs
                                              Sample.full_response);
             core_getInput := Sample.webhook_inputs;
             JSON_parse := Sample.parse;
             pulls_get := λ _ _ _ _, Ok Sample.detail;
             chat_postMessage := λ _ _, Ok Sample.full_response;
             reactions_add := λ _ _ _ _, Ok ();
             send := λ _ _, Throw (JStr "An HTTP protocol error occurred");
             Math_random_5 := 0%fin |})
  = Some (core_setFailed (JStr "An HTTP protocol error occurred")).
Proof.
  eapply (proj2 (delivery_failure_reported _
                   (JStr "An HTTP protocol error occurred"))).
  - apply list_elem_of_further, list_elem_of_here.
  - reflexivity.
Defined.

(** X22: The detail is fetched only for a review or a comment and only with
    a token: the call carries the configured token, the repository of the
    context and the number of the pull request or issue; a 'pull_request'
    event never fetches. *)
Theorem fetch_arguments (w : World) (token owner repo : string) (n : Z) :
  octokit_pulls_get token owner repo n ∈ Main.trace w →
  token = core_getInput w "github-token"
  ∧ token ≠ ""
  ∧ owner = repo_owner (context w)
  ∧ repo = repo_repo (context w)
  ∧ Shape.fetch_number (event (context w)) = Some n
  ∧ ∀ p, event (context w) ≠ PullRequestEvent p.
Proof.
  run_forms w; trace_cases Ht;
    match goal with H : octokit_pulls_get _ _ _ _ = _ |- _ =>
      injection H as -> -> -> -> end;
    destruct (parseInput_fields _ _ Hp) as (<- & _);
    (do 5 (split; [done|])); intros p Hev; rewrite Hev in Hn; discriminate.
Qed.

Lemma fetch_arguments_witness :
  "ghs_1" ≠ ""
  ∧ Shape.fetch_number Sample.comment_event = Some 7.
Proof.
  destruct (fetch_arguments
              (Sample.world Sample.comment_event (Some "created")
                 (λ name, if String.eqb name "github-token" then "ghs_1"
                          else Sample.webhook_inputs name)
                 Sample.full_response)
              "ghs_1" "acme" "app" 7) as (_ & Hne & _ & _ & Hn & _).
  - apply list_elem_of_further, list_elem_of_here.
  - split; [exact Hne | exact Hn].
Defined.

(** X23: When the fetch of the detail throws, the run reports that error and
    delivers nothing; when it answers, the message is delivered. *)
Theorem fetch_failure_reported (w : World) (token owner repo : string) (n : Z) :
  octokit_pulls_get token owner repo n ∈ Main.trace w →
  (∀ e, pulls_get w token owner repo n = Throw e →
     last (Main.trace w) = Some (core_setFailed (Utils.normalizeError e))
     ∧ List.filter Main.is_delivery (Main.trace w) = [])
  ∧ (∀ d, pulls_get w token owner repo n = Ok d →
       length (List.filter Main.is_delivery (Main.trace w)) = 1%nat).
Proof.
  run_forms w; trace_cases Ht;
    match goal with H : octokit_pulls_get _ _ _ _ = _ |- _ =>
      injection H as -> -> -> -> end;
    (split; [intros e' He'|intros d' Hd']);
    try (rewrite He' in Hfa; apply Hthrow in Hfa; congruence);
    try (pose proof (proj1 (Hthrow _) Hrc) as Habs; congruence);
    try reflexivity.
  all: pose proof (proj1 (Hthrow _) Hrc) as Habs;
    rewrite Hfa in Habs; injection Habs as Habs;
    rewrite He' in Habs; injection Habs as <-; done.
Qed.

Lemma fetch_failure_reported_witness :
  length (List.filter Main.is_delivery
            (Main.trace
               (Sample.world Sample.comment_event (Some "created")
                  (λ name, if String.eqb name "github-token" then "ghs_1"
                           else Sample.webhook_inputs name)
                  Sample.full_response)))
  = 1%nat.
Proof.
  destruct (fetch_failure_reported
              (Sample.world Sample.comment_event (Some "created")
                 (λ name, if String.eqb name "github-token" then "ghs_1"
                          else Sample.webhook_inputs name)
                 Sample.full_response)
              "ghs_1" "acme" "app" 7) as [_ H].
  - apply list_elem_of_further, list_elem_of_here.
  - apply (H Sample.detail). reflexivity.
Defined.

(** X24: A run never reaches the fallback of the message builder: the
    "Unsupported event type." log is in no trace. *)
Theorem unsupported_never_logged (w : World) :
  core_info "Unsupported event type." ∉ Main.trace w.
Proof.
  unfold not. run_forms w; trace_cases Ht.
Qed.

(** X25: What a run reports as its failure is a string, unless [undefined]
    itself was thrown. *)
Theorem failure_message_string (w : World) (msg : JsVal) :
  core_setFailed msg ∈ Main.trace w →
  is_string msg = true ∨ msg = JUndefined.
Proof.
  run_forms w; trace_cases Ht;
    match goal with H : core_setFailed _ = _ |- _ => injection H as -> end;
    try (by left);
    match goal with
    | |- context [Utils.normalizeError ?e] =>
        destruct (normalizeError_cases e) as [[s ->]| ->]; [by left | by right]
    end.
Qed.

Lemma failure_message_string_witness :
  is_string (JStr Main.no_credentials_message) = true
  ∨ JStr Main.no_credentials_message = JUndefined.
Proof.
  apply (failure_message_string
           (Sample.world (Sample.pull_request_event false) (Some "opened")
                         Sample.no_inputs Sample.full_response)).
  apply list_elem_of_here.
Defined.

(** X26: With no user mapping configured the text parsed is "{}": when that
    parses to the empty object, the inputs are accepted with an empty
    mapping; every user whose name is not a property of
    [Object.prototype] is shown by the plain username, while "constructor"
    is shown as a mention of the inherited function. *)
Theorem parseInput_default_mapping (w : World) :
  core_getInput w "user-mapping" = "" →
  JSON_parse w "{}" = Ok (JObj []) →
  Main.parseInput w = Ok (Spec.input_of w ∅)
  ∧ (∀ input githubUser,
       Main.parseInput w = Ok input →
       inherited githubUser = None →
       Slack.generateUser githubUser (userMapping input) = githubUser)
  ∧ (∀ input,
       Main.parseInput w = Ok input →
       Slack.generateUser "constructor" (userMapping input)
       = "<@function Object() { [native code] }> (constructor)").
Proof.
  intros Hm Hp.
  assert (H : Main.parseInput w = Ok (Spec.input_of w ∅)).
  { unfold Main.parseInput, Main.formatUserMapping, Main.or_else.
    rewrite Hm. cbn [Js.truthy_string]. by rewrite Hp. }
  split; [done|]. split.
  - intros input u Hi Hu. rewrite H in Hi. injection Hi as <-.
    by apply (proj1 (proj2 (proj2 (generateUser_cases u _)))).
  - intros input Hi. rewrite H in Hi. by injection Hi as <-.
Qed.

Lemma parseInput_default_mapping_witness :
  Main.parseInput (Sample.world (Sample.pull_request_event false)
                                (Some "opened") Sample.no_inputs
                                Sample.full_response)
  = Ok (Spec.input_of (Sample.world (Sample.pull_request_event false)
                                    (Some "opened") Sample.no_inputs
                                    Sample.full_response) ∅)
  ∧ Slack.generateUser "alice"
      (userMapping
         (Spec.input_of (Sample.world (Sample.pull_request_event false)
                                      (Some "opened") Sample.no_inputs
                                      Sample.full_response) ∅))
    = "alice".
Proof.
  pose proof (parseInput_default_mapping
                (Sample.world (Sample.pull_request_event false)
                              (Some "opened") Sample.no_inputs
                              Sample.full_response) eq_refl eq_refl) as T.
  split; [apply (proj1 T)|].
  apply (proj1 (proj2 T) _ "alice" (proj1 T) eq_refl).
Defined.
